(** * mysqlsuperdump: the dump engine of [dumper/mysql.go]

    A shallow embedding of the [Client] type and its methods, and the
    properties of the generated dump script.

    Go strings are byte strings: they are [string] here (lists of 8-bit
    [ascii]).  The two collaborators of the engine are made explicit:
    - the [io.Writer] every method writes to, and
    - the [*sql.DB] handle every method sends statements to.
    Both are recorded in one chronological trace of events, so that the order
    of writes and statements is part of what a method does. *)

From Stdlib Require Import ZArith NArith Ascii String List DecimalString Lia.
From stdpp Require Import base option list strings gmap.

Local Open Scope string_scope.
Local Open Scope list_scope.
Local Open Scope Z_scope.

(** ** Text *)

(** The bytes the format strings of the source spell with an escape. *)
Definition NUL : ascii := "000"%char.
Definition LF : ascii := "010"%char.
Definition CR : ascii := "013"%char.
Definition SUB : ascii := "026"%char.
Definition quote : ascii := "'"%char.
Definition backslash : ascii := "\"%char.

Definition nl : string := String LF "".

(** [strings.Join]. *)
Definition Join (elems : list string) (sep : string) : string :=
  String.concat sep elems.

(** The verb [%d] of [fmt] on a [uint64]. *)
Definition fmt_d (n : N) : string := NilEmpty.string_of_uint (N.to_uint n).

(** [strings.ToLower] restricted to ASCII: the letters [A]..[Z] are mapped,
    every other byte is kept.  The engine is parametric in the lower-casing
    function (see [Section Dumper]); this one instantiates it in examples. *)
Definition lower_byte (c : ascii) : ascii :=
  let n := nat_of_ascii c in
  if ((65 <=? n)%nat && (n <=? 90)%nat)%bool then ascii_of_nat (n + 32) else c.

Fixpoint ascii_lower (s : string) : string :=
  match s with
  | EmptyString => EmptyString
  | String c s' => String (lower_byte c) (ascii_lower s')
  end.

(** ** Errors and results *)

(** A Go [error] value is opaque to the engine; it is identified with its
    message. *)
Definition error : Type := string.

(** What a fallible call of a collaborator yields. *)
Inductive outcome (A : Type) : Type :=
| Done (a : A)
| Failed (e : error).
Arguments Done {A} a.
Arguments Failed {A} e.

(** ** The database collaborator *)

(** A cell as the driver hands it over: [None] is SQL [NULL], [Some b] the raw
    bytes of the value (the MySQL text protocol). *)
Definition Cell : Type := option string.

(** [*sql.Rows]: the column names ([rows.Columns()]) and, for each successive
    [rows.Next()], what the following [rows.Scan] has to convert: the cells of
    the row, or the error of a row that cannot be read at all. *)
Record Rows : Type := {
  Columns : outcome (list string);
  cursor : list (outcome (list Cell))
}.

(** The connection behind [*sql.DB], as a deterministic oracle: the answer to
    a statement may depend on the statements sent before it on this handle
    (oldest first). *)
Record Conn : Type := {
  on_exec : list string -> string -> option error;
  on_query : list string -> string -> outcome Rows
}.

Definition ErrNoRows : error := "sql: no rows in result set".
Definition ErrScanArity : error := "sql: wrong number of destination arguments in Scan".
Definition ErrScanNull : error := "sql: Scan error: converting NULL is unsupported".
Definition ErrScanUint : error := "sql: Scan error: converting driver.Value to a uint64".

(** [Scan] into a [*string]. *)
Definition scan_string (c : Cell) : outcome string :=
  match c with
  | Some b => Done b
  | None => Failed ErrScanNull
  end.

Definition digit_of (c : ascii) : option N :=
  let n := N_of_ascii c in
  if ((48 <=? n) && (n <=? 57))%N then Some (n - 48)%N else None.

Fixpoint parse_digits (s : string) (acc : N) : option N :=
  match s with
  | EmptyString => Some acc
  | String c s' =>
      match digit_of c with
      | Some d => parse_digits s' (10 * acc + d)%N
      | None => None
      end
  end.

(** [strconv.ParseUint(s, 10, 64)]: a non-empty run of decimal digits whose
    value fits 64 bits. *)
Definition ParseUint (s : string) : option N :=
  match s with
  | EmptyString => None
  | _ =>
      match parse_digits s 0%N with
      | Some n => if (n <? 2 ^ 64)%N then Some n else None
      | None => None
      end
  end.

(** [Scan] into a [*uint64]. *)
Definition scan_uint64 (c : Cell) : outcome N :=
  match c with
  | None => Failed ErrScanNull
  | Some b =>
      match ParseUint b with
      | Some n => Done n
      | None => Failed ErrScanUint
      end
  end.

(** [rows.Scan(&a, &b)] with two [string] destinations. *)
Definition Scan_string2 (item : outcome (list Cell)) : outcome (string * string) :=
  match item with
  | Failed e => Failed e
  | Done [a; b] =>
      match scan_string a with
      | Failed e => Failed e
      | Done a' =>
          match scan_string b with
          | Failed e => Failed e
          | Done b' => Done (a', b')
          end
      end
  | Done _ => Failed ErrScanArity
  end.

(** [row.Scan(&count)] with one [uint64] destination. *)
Definition Scan_uint64 (item : outcome (list Cell)) : outcome N :=
  match item with
  | Failed e => Failed e
  | Done [c] => scan_uint64 c
  | Done _ => Failed ErrScanArity
  end.

(** [rows.Scan(scanArgs...)] with [n] destinations of type [**sql.RawBytes]:
    every cell converts, a [NULL] to a nil pointer. *)
Definition Scan_raw (n : nat) (item : outcome (list Cell)) : outcome (list Cell) :=
  match item with
  | Failed e => Failed e
  | Done cells =>
      if (length cells =? n)%nat then Done cells else Failed ErrScanArity
  end.

(** ** The trace and the monad of the engine *)

(** What a method does to its collaborators, in the order it does it:
    [Wrote s] is one call of [fmt.Fprintf]/[fmt.Fprintln] on the writer with
    the rendered text [s]; [Issued q] is one statement sent to the database. *)
Inductive Event : Type :=
| Wrote (s : string)
| Issued (q : string).

Definition Trace : Type := list Event.

(** The bytes the writer has received. *)
Fixpoint sink (t : Trace) : list string :=
  match t with
  | [] => []
  | Wrote s :: t' => s :: sink t'
  | Issued _ :: t' => sink t'
  end.

(** The statements the database has received. *)
Fixpoint issued (t : Trace) : list string :=
  match t with
  | [] => []
  | Wrote _ :: t' => issued t'
  | Issued q :: t' => q :: issued t'
  end.

Definition output (t : Trace) : string := String.concat "" (sink t).

(** A method is a function of the trace so far, to the extended trace and its
    Go results. *)
Definition M (A : Type) : Type := Trace -> Trace * A.

Definition ret {A} (a : A) : M A := fun t => (t, a).

Definition bind {A B} (m : M A) (k : A -> M B) : M B :=
  fun t => let (t', a) := m t in k a t'.

#[global] Instance M_ret : MRet M := @ret.
#[global] Instance M_bind : MBind M := fun A B k m => bind m k.

(** [fmt.Fprintf(w, ...)], its result discarded as in the source. *)
Definition Fprintf (s : string) : M unit := fun t => (t ++ [Wrote s], tt).

(** [db.Exec(q)]; the [sql.Result] is never looked at. *)
Definition Exec (db : Conn) (q : string) : M (option error) :=
  fun t => (t ++ [Issued q], on_exec db (issued t) q).

(** [db.Query(q)]. *)
Definition Query (db : Conn) (q : string) : M (outcome Rows) :=
  fun t => (t ++ [Issued q], on_query db (issued t) q).

(** [db.QueryRow(q)] followed by [row.Scan]: the first row of the result, the
    error of the query, or [sql.ErrNoRows]. *)
Definition first_row (r : outcome Rows) : outcome (list Cell) :=
  match r with
  | Failed e => Failed e
  | Done rows =>
      match cursor rows with
      | [] => Failed ErrNoRows
      | item :: _ => item
      end
  end.

Definition QueryRow (db : Conn) (q : string) : M (outcome (list Cell)) :=
  r ← Query db q; ret (first_row r).

(** ** Escaping *)

(** Modelled from the spec: the function [escape] called by [WriteTableData]
    is not among the sources.  The spec has every single-quote, backslash, NUL
    byte, newline, carriage return and Ctrl-Z (0x1A) of the value replaced
    with its backslash-escaped form, the forms being those of the MySQL string
    literal. *)
Definition escape_byte (c : ascii) : string :=
  if Ascii.eqb c NUL then String backslash "0"
  else if Ascii.eqb c LF then String backslash "n"
  else if Ascii.eqb c CR then String backslash "r"
  else if Ascii.eqb c backslash then String backslash (String backslash "")
  else if Ascii.eqb c quote then String backslash (String quote "")
  else if Ascii.eqb c SUB then String backslash "Z"
  else String c "".

Fixpoint escape (str : string) : string :=
  match str with
  | EmptyString => EmptyString
  | String c rest => escape_byte c +:+ escape rest
  end.

(** The bytes [escape] replaces. *)
Definition special (c : ascii) : bool :=
  Ascii.eqb c NUL || Ascii.eqb c LF || Ascii.eqb c CR ||
  Ascii.eqb c backslash || Ascii.eqb c quote || Ascii.eqb c SUB.

(** ** The engine *)

Definition OperationIgnore : string := "ignore".
Definition OperationNoData : string := "nodata".
Definition DefaultExtendedInsertRows : Z := 100.

Record Client : Type := {
  DB : Conn;
  SelectMap : gmap string (gmap string string);
  WhereMap : gmap string string;
  FilterMap : gmap string string;
  UseTableLock : bool;
  ExtendedInsertRows : Z
}.

Definition NewMySQLDumper (db : Conn) : Client :=
  {| DB := db; SelectMap := ∅; WhereMap := ∅; FilterMap := ∅;
     UseTableLock := false;
     ExtendedInsertRows := DefaultExtendedInsertRows |}.

Definition LockTableReading (d : Client) (table : string) : M (option error) :=
  Exec (DB d) ("LOCK TABLES `" +:+ table +:+ "` READ").

Definition FlushTable (d : Client) (table : string) : M (option error) :=
  Exec (DB d) ("FLUSH TABLES `" +:+ table +:+ "`").

Definition UnlockTables (d : Client) : M (option error) :=
  Exec (DB d) "UNLOCK TABLES".

(** The loop of [GetTables] over the cursor, [tables] being the slice built
    so far. *)
Fixpoint GetTables_loop (items : list (outcome (list Cell))) (tables : list string)
  : list string * option error :=
  match items with
  | [] => (tables, None)
  | item :: rest =>
      match Scan_string2 item with
      | Failed err => (tables, Some err)
      | Done (tableName, tableType) =>
          if String.eqb tableType "BASE TABLE"
          then GetTables_loop rest (tables ++ [tableName])
          else GetTables_loop rest tables
      end
  end.

Definition GetTables (d : Client) : M (list string * option error) :=
  let tables := [] in
  r ← Query (DB d) "SHOW FULL TABLES";
  match r with
  | Failed err => ret (tables, Some err)
  | Done rows => ret (GetTables_loop (cursor rows) tables)
  end.

Definition WriteCreateTable (d : Client) (table : string) : M (option error) :=
  Fprintf (nl +:+ "--" +:+ nl +:+ "-- Structure for table `" +:+ table +:+ "`" +:+ nl
           +:+ "--" +:+ nl +:+ nl) ;;
  Fprintf ("DROP TABLE IF EXISTS `" +:+ table +:+ "`;" +:+ nl) ;;
  row ← QueryRow (DB d) ("SHOW CREATE TABLE `" +:+ table +:+ "`");
  match Scan_string2 row with
  | Failed err => ret (Some err)
  | Done (name, ddl) =>
      Fprintf (ddl +:+ ";" +:+ nl) ;;
      ret None
  end.

Section Dumper.

(** [strings.ToLower], of the Go library: the engine only uses it to
    normalise the keys of its three maps. *)
Variable ToLower : string -> string.

(** The body of the loop of [GetColumnsForSelect]: the new value of
    [columns[k]] for the column name [column]. *)
Definition select_entry (d : Client) (table column : string) : string :=
  match SelectMap d !! ToLower table ≫= (.!! ToLower column) with
  | Some replacement => replacement +:+ " AS `" +:+ column +:+ "`"
  | None => "`" +:+ column +:+ "`"
  end.

(** [for k, column := range columns { columns[k] = ... }]: the slice is
    updated in place, [n] iterations being left from index [k] on. *)
Fixpoint range_columns (d : Client) (table : string) (n k : nat)
    (columns : list string) : list string :=
  match n with
  | O => columns
  | S n' =>
      match columns !! k with
      | Some column =>
          range_columns d table n' (S k) (<[k := select_entry d table column]> columns)
      | None => columns
      end
  end.

Definition GetColumnsForSelect (d : Client) (table : string)
  : M (list string * option error) :=
  r ← Query (DB d) ("SELECT * FROM `" +:+ table +:+ "` LIMIT 1");
  match r with
  | Failed err => ret ([], Some err)
  | Done rows =>
      match Columns rows with
      | Failed err => ret ([], Some err)
      | Done columns =>
          ret (range_columns d table (length columns) 0 columns, None)
      end
  end.

(** The tail of a query: [fmt.Sprintf("%s WHERE %s", query, where)] when
    [WhereMap] has the lower-cased table name. *)
Definition with_where (d : Client) (table query : string) : string :=
  match WhereMap d !! ToLower table with
  | Some where_ => query +:+ " WHERE " +:+ where_
  | None => query
  end.

Definition GetSelectQueryForTable (d : Client) (table : string)
  : M (string * option error) :=
  r ← GetColumnsForSelect d table;
  match r with
  | (_, Some err) => ret ("", Some err)
  | (cols, None) =>
      let query := "SELECT " +:+ Join cols ", " +:+ " FROM `" +:+ table +:+ "`" in
      ret (with_where d table query, None)
  end.

(** The statement [GetRowCountForTable] sends. *)
Definition count_query (d : Client) (table : string) : string :=
  with_where d table ("SELECT COUNT(*) FROM `" +:+ table +:+ "`").

(** [err = row.Scan(&count)] as the caller sees it: the destination after
    the call, and the error.  A row that is missing or does not convert leaves
    the destination as it was.  ([Row.Scan] also reports the error of closing
    the result set after a conversion that succeeded; a result set that fails
    to close is not among the [Rows] modelled here.) *)
Definition Scan_into_uint64 (row : outcome (list Cell)) (dest : N)
  : N * option error :=
  match Scan_uint64 row with
  | Done n => (n, None)
  | Failed err => (dest, Some err)
  end.

(** The named results [(count uint64, err error)]: [count] starts at zero and
    is returned as [row.Scan] left it. *)
Definition GetRowCountForTable (d : Client) (table : string)
  : M (N * option error) :=
  let count := 0%N in
  row ← QueryRow (DB d) (count_query d table);
  ret (Scan_into_uint64 row count).

Definition WriteTableLockWrite (d : Client) (table : string) : M unit :=
  Fprintf ("LOCK TABLES `" +:+ table +:+ "` WRITE;" +:+ nl).

Definition WriteUnlockTables (d : Client) : M unit :=
  Fprintf ("UNLOCK TABLES;" +:+ nl).

(** [selectAllDataFor]; [Failed err] stands for [(nil, nil, err)]. *)
Definition selectAllDataFor (d : Client) (table : string)
  : M (outcome (Rows * list string)) :=
  r ← GetSelectQueryForTable d table;
  match r with
  | (_, Some err) => ret (Failed err)
  | (query, None) =>
      q ← Query (DB d) query;
      match q with
      | Failed err => ret (Failed err)
      | Done rows =>
          match Columns rows with
          | Failed err => ret (Failed err)
          | Done columns => ret (Done (rows, columns))
          end
      end
  end.

Definition WriteTableHeader (d : Client) (table : string) : M (N * option error) :=
  Fprintf (nl +:+ "--" +:+ nl +:+ "-- Data for table `" +:+ table +:+ "`") ;;
  r ← GetRowCountForTable d table;
  match r with
  | (_, Some err) => ret (0%N, Some err)
  | (count, None) =>
      Fprintf (" -- " +:+ fmt_d count +:+ " rows" +:+ nl +:+ "--" +:+ nl +:+ nl) ;;
      ret (count, None)
  end.

(** One cell of a row: [val] after the body of the inner loop. *)
Definition render_cell (col : Cell) : string :=
  match col with
  | None => "NULL"
  | Some b => "'" +:+ escape b +:+ "'"
  end.

(** [for _, col := range values { ...; vals = append(vals, val) }]. *)
Fixpoint render_values (values : list Cell) (vals : list string) : list string :=
  match values with
  | [] => vals
  | col :: rest => render_values rest (vals ++ [render_cell col])
  end.

(** The element appended to [data] for one scanned row. *)
Definition row_tuple (values : list Cell) : string :=
  "( " +:+ Join (render_values values []) ", " +:+ " )".

(** The text of [fmt.Fprintf(w, "%s\n%s;\n", query, strings.Join(data, ",\n"))]. *)
Definition insert_statement (query : string) (data : list string) : string :=
  query +:+ nl +:+ Join data ("," +:+ nl) +:+ ";" +:+ nl.

Definition write_insert (query : string) (data : list string) : M unit :=
  Fprintf (insert_statement query data).

(** The loop of [WriteTableData] over the cursor; [data] is the batch
    accumulated so far.  The result is the batch left when the cursor is
    exhausted, or the error of the row that stopped the loop. *)
Fixpoint WriteTableData_loop (d : Client) (query : string) (ncols : nat)
    (items : list (outcome (list Cell))) (data : list string)
  : M (outcome (list string)) :=
  match items with
  | [] => ret (Done data)
  | item :: rest =>
      match Scan_raw ncols item with
      | Failed err => ret (Failed err)
      | Done values =>
          let data := data ++ [row_tuple values] in
          if ExtendedInsertRows d =? 0 then
            WriteTableData_loop d query ncols rest data
          else if Z.of_nat (length data) >=? ExtendedInsertRows d then
            write_insert query data ;;
            WriteTableData_loop d query ncols rest []
          else
            WriteTableData_loop d query ncols rest data
      end
  end.

(** Every item of a cursor scans into [ncols] raw cells, [scanned] being the
    rows read, in order. *)
Definition all_scanned (ncols : nat) (items : list (outcome (list Cell)))
    (scanned : list (list Cell)) : Prop :=
  Forall2 (fun item values => Scan_raw ncols item = Done values) items scanned.

Definition WriteTableData (d : Client) (table : string) : M (option error) :=
  r ← selectAllDataFor d table;
  match r with
  | Failed err => ret (Some err)
  | Done (rows, columns) =>
      let query := "INSERT INTO `" +:+ table +:+ "` VALUES" in
      l ← WriteTableData_loop d query (length columns) (cursor rows) [];
      match l with
      | Failed err => ret (Some err)
      | Done data =>
          if (0 <? length data)%nat then write_insert query data ;; ret None
          else ret None
      end
  end.

(** [d.FilterMap[strings.ToLower(table)]]: a missing key reads as the empty
    string. *)
Definition policy (d : Client) (table : string) : string :=
  default "" (FilterMap d !! ToLower table).

Definition WriteTable (d : Client) (table : string) : M (option error) :=
  if String.eqb (policy d table) OperationIgnore then ret None
  else
    let skipData := String.eqb (policy d table) OperationNoData in
    (if negb skipData && UseTableLock d
     then LockTableReading d table ;; FlushTable d table ;; ret tt
     else ret tt) ;;
    WriteCreateTable d table ;;
    if negb skipData then
      r ← WriteTableHeader d table;
      match r with
      | (_, Some err) => ret (Some err)
      | (cnt, None) =>
          if (0 <? cnt)%N then
            WriteTableLockWrite d table ;;
            WriteTableData d table ;;
            Fprintf nl ;;
            WriteUnlockTables d ;;
            (if UseTableLock d then UnlockTables d ;; ret tt else ret tt) ;;
            ret None
          else ret None
      end
    else ret None.

(** [for _, table := range tables] of [WriteTables]. *)
Fixpoint WriteTables_loop (d : Client) (tables : list string) : M (option error) :=
  match tables with
  | [] => ret None
  | table :: rest =>
      r ← WriteTable d table;
      match r with
      | Some err => ret (Some err)
      | None => WriteTables_loop d rest
      end
  end.

Definition WriteTables (d : Client) : M (option error) :=
  r ← GetTables d;
  match r with
  | (_, Some err) => ret (Some err)
  | (tables, None) => WriteTables_loop d tables
  end.

End Dumper.

(** ** Fixtures

    Connections that answer by the text of the statement alone, in the manner
    of the expectations of the repository's tests. *)

Definition ErrUnexpected : error := "call to Query was not expected".

Fixpoint answer (answers : list (string * outcome Rows)) (q : string) : outcome Rows :=
  match answers with
  | [] => Failed ErrUnexpected
  | (q', r) :: rest => if String.eqb q q' then r else answer rest q
  end.

Definition mock (answers : list (string * outcome Rows)) : Conn :=
  {| on_exec := fun _ _ => None; on_query := fun _ q => answer answers q |}.

(** A result set with the given column names and rows, every row readable. *)
Definition NewRows (columns : list string) (rows : list (list Cell)) : Rows :=
  {| Columns := Done columns; cursor := map Done rows |}.

Definition client (db : Conn) (n : Z) : Client :=
  {| DB := db; SelectMap := ∅; WhereMap := ∅; FilterMap := ∅;
     UseTableLock := false; ExtendedInsertRows := n |}.

(** A database with one table [t] of two columns and three rows, one cell of
    which is [NULL] and one of which holds a single-quote. *)
Definition rows_t : Rows :=
  NewRows ["id"; "Name"]
    [[Some "1"; Some "a'b"]; [Some "2"; None]; [Some "3"; Some "c"]].

Definition ddl_t : string := "CREATE TABLE `t` (`id` int, `Name` text)".

Definition db_t : Conn :=
  mock [("SHOW FULL TABLES",
         Done (NewRows ["Tables_in_database"; "Table_type"]
                 [[Some "t"; Some "BASE TABLE"]; [Some "v"; Some "VIEW"]]));
        ("SHOW CREATE TABLE `t`",
         Done (NewRows ["Table"; "Create Table"] [[Some "t"; Some ddl_t]]));
        ("SELECT COUNT(*) FROM `t`", Done (NewRows ["COUNT(*)"] [[Some "3"]]));
        ("SELECT * FROM `t` LIMIT 1",
         Done (NewRows ["id"; "Name"] [[Some "1"; Some "a'b"]]));
        ("SELECT `id`, `Name` FROM `t`", Done rows_t)].

(** The same table once it is empty. *)
Definition db_empty : Conn :=
  mock [("SHOW CREATE TABLE `t`",
         Done (NewRows ["Table"; "Create Table"] [[Some "t"; Some ddl_t]]));
        ("SELECT COUNT(*) FROM `t`", Done (NewRows ["COUNT(*)"] [[Some "0"]]))].

(** [SHOW FULL TABLES] answers with a base table and then a row whose type is
    [NULL], which does not scan into a [string]. *)
Definition db_tables_broken : Conn :=
  mock [("SHOW FULL TABLES",
         Done (NewRows ["Tables_in_database"; "Table_type"]
                 [[Some "t1"; Some "BASE TABLE"]; [Some "1"; None]]))].

(** [SHOW CREATE TABLE] answers with a [NULL] DDL, as in the repository's
    test of [WriteCreateTable]; the table counts no row. *)
Definition db_ddl_broken : Conn :=
  mock [("SHOW CREATE TABLE `t`",
         Done (NewRows ["Table"; "Create Table"] [[Some "t"; None]]));
        ("SELECT COUNT(*) FROM `t`", Done (NewRows ["COUNT(*)"] [[Some "0"]]))].

Definition ErrBroken : error := "broken".

(** The table counts three rows and the probe of its columns fails. *)
Definition db_select_broken : Conn :=
  mock [("SHOW CREATE TABLE `t`",
         Done (NewRows ["Table"; "Create Table"] [[Some "t"; Some ddl_t]]));
        ("SELECT COUNT(*) FROM `t`", Done (NewRows ["COUNT(*)"] [[Some "3"]]));
        ("SELECT * FROM `t` LIMIT 1", Failed ErrBroken)].

(** A client with the configuration maps of the repository's tests. *)
Definition client_maps : Client :=
  {| DB := db_t;
     SelectMap := {[ "t" := {[ "name" := "NOW()" ]} ]};
     WhereMap := {[ "t" := "id > 0" ]};
     FilterMap := {[ "skipped" := OperationIgnore ]};
     UseTableLock := false;
     ExtendedInsertRows := DefaultExtendedInsertRows |}.


(** The count of [t] comes back [NULL], as in the repository's test of
    [GetRowCountForTable]. *)
Definition db_count_broken : Conn :=
  mock [("SHOW CREATE TABLE `t`",
         Done (NewRows ["Table"; "Create Table"] [[Some "t"; Some ddl_t]]));
        ("SELECT COUNT(*) FROM `t`", Done (NewRows ["COUNT(*)"] [[None]]))].

(** The fourth row of [t] cannot be read. *)
Definition rows_t_broken : Rows :=
  {| Columns := Done ["id"; "Name"];
     cursor := [Done [Some "1"; Some "a"]; Done [Some "2"; Some "b"];
                Done [Some "3"; Some "c"]; Failed ErrBroken;
                Done [Some "5"; Some "e"]] |}.

Definition db_rows_broken : Conn :=
  mock [("SHOW CREATE TABLE `t`",
         Done (NewRows ["Table"; "Create Table"] [[Some "t"; Some ddl_t]]));
        ("SELECT COUNT(*) FROM `t`", Done (NewRows ["COUNT(*)"] [[Some "5"]]));
        ("SELECT * FROM `t` LIMIT 1",
         Done (NewRows ["id"; "Name"] [[Some "1"; Some "a"]]));
        ("SELECT `id`, `Name` FROM `t`", Done rows_t_broken)].

(** A client that locks the tables it reads. *)
Definition client_lock (db : Conn) (n : Z) : Client :=
  {| DB := db; SelectMap := ∅; WhereMap := ∅;
     FilterMap := {[ "schema_only" := OperationNoData ]};
     UseTableLock := true; ExtendedInsertRows := n |}.

(** Three base tables, the count of the second of which does not decode. *)
Definition db_three : Conn :=
  mock [("SHOW FULL TABLES",
         Done (NewRows ["Tables_in_database"; "Table_type"]
                 [[Some "b"; Some "BASE TABLE"]; [Some "t"; Some "BASE TABLE"];
                  [Some "c"; Some "BASE TABLE"]]));
        ("SHOW CREATE TABLE `b`",
         Done (NewRows ["Table"; "Create Table"] [[Some "b"; Some "CREATE TABLE `b` (`x` int)"]]));
        ("SELECT COUNT(*) FROM `b`", Done (NewRows ["COUNT(*)"] [[Some "0"]]));
        ("SHOW CREATE TABLE `t`",
         Done (NewRows ["Table"; "Create Table"] [[Some "t"; Some ddl_t]]));
        ("SELECT COUNT(*) FROM `t`", Done (NewRows ["COUNT(*)"] [[None]]));
        ("SHOW CREATE TABLE `c`",
         Done (NewRows ["Table"; "Create Table"] [[Some "c"; Some "CREATE TABLE `c` (`y` int)"]]));
        ("SELECT COUNT(*) FROM `c`", Done (NewRows ["COUNT(*)"] [[Some "0"]]))].

(** The statements [WriteTable] sends before anything else when it is to
    read the rows of a table under [UseTableLock]. *)
Definition read_locks (d : Client) (table : string) : list string :=
  if UseTableLock d
  then ["LOCK TABLES `" +:+ table +:+ "` READ"; "FLUSH TABLES `" +:+ table +:+ "`"]
  else [].

(** ** Properties *)

Lemma sink_app (t1 t2 : Trace) : sink (t1 ++ t2) = sink t1 ++ sink t2.
Proof.
  induction t1 as [|[s|q] t1 IH]; simpl; [reflexivity | f_equal; exact IH | exact IH].
Qed.

Lemma issued_app (t1 t2 : Trace) : issued (t1 ++ t2) = issued t1 ++ issued t2.
Proof.
  induction t1 as [|[s|q] t1 IH]; simpl; [reflexivity | exact IH | f_equal; exact IH].
Qed.

Lemma append_cons (c : ascii) (s1 s2 : string) :
  String c s1 +:+ s2 = String c (s1 +:+ s2).
Proof. reflexivity. Qed.

Lemma append_nil_r (s : string) : s +:+ "" = s.
Proof.
  induction s as [|c s IH]; [reflexivity|].
  rewrite append_cons, IH. reflexivity.
Qed.

Lemma append_assoc (a b c : string) : (a +:+ b) +:+ c = a +:+ b +:+ c.
Proof.
  induction a as [|x a IH]; [reflexivity|].
  rewrite !append_cons, IH. reflexivity.
Qed.

(** Unfolding of the monad and of the primitive calls. *)
Ltac run :=
  unfold mbind, M_bind, bind, ret, Fprintf, QueryRow, Query, Exec in *;
  simpl in *.

Section Properties.

Variable ToLower : string -> string.

(** C7. A table whose [FilterMap] entry, under its lower-cased name, is
    [ignore] is skipped: [WriteTable] leaves the trace as it found it (nothing
    is written to the sink, no statement is sent to the database) and returns
    [nil]. *)
Theorem WriteTable_ignore (d : Client) (table : string) (t : Trace) :
  FilterMap d !! ToLower table = Some OperationIgnore ->
  WriteTable ToLower d table t = (t, None).
Proof.
  intros H. unfold WriteTable, policy. rewrite H. reflexivity.
Qed.

(** C10. [WriteCreateTable] writes the header comment and the [DROP TABLE IF
    EXISTS] statement before it sends [SHOW CREATE TABLE]; when that query or
    the decoding of its row fails with [err], the error is returned and the
    two writes stay in the sink. *)
Theorem WriteCreateTable_failure_keeps_output
    (d : Client) (table : string) (t : Trace) (err : error) :
  Scan_string2 (first_row (on_query (DB d) (issued t)
                             ("SHOW CREATE TABLE `" +:+ table +:+ "`")))
    = Failed err ->
  WriteCreateTable d table t =
    (t ++ [Wrote (nl +:+ "--" +:+ nl +:+ "-- Structure for table `" +:+ table
                  +:+ "`" +:+ nl +:+ "--" +:+ nl +:+ nl);
           Wrote ("DROP TABLE IF EXISTS `" +:+ table +:+ "`;" +:+ nl);
           Issued ("SHOW CREATE TABLE `" +:+ table +:+ "`")],
     Some err).
Proof.
  intros H. unfold WriteCreateTable. run.
  rewrite !issued_app. simpl. rewrite !app_nil_r.
  rewrite H. rewrite <- !app_assoc. reflexivity.
Qed.

(** The in-place loop of [GetColumnsForSelect] rewrites the entries from the
    current index on and leaves those before it. *)
Lemma range_columns_app (d : Client) (table : string) (post pre : list string) :
  range_columns ToLower d table (length post) (length pre) (pre ++ post)
  = pre ++ map (select_entry ToLower d table) post.
Proof.
  revert pre. induction post as [|column post IH]; intros pre; simpl.
  - reflexivity.
  - rewrite list_lookup_middle by reflexivity.
    replace (length pre) with (length pre + 0)%nat at 2 by lia.
    rewrite insert_app_r. simpl.
    specialize (IH (pre ++ [select_entry ToLower d table column])).
    rewrite length_app in IH. simpl in IH.
    replace (length pre + 1)%nat with (S (length pre)) in IH by lia.
    rewrite <- !app_assoc in IH. simpl in IH. exact IH.
Qed.

(** C5. The column list of [GetColumnsForSelect] has one entry per column of
    the table, in the order the database gives them; the entry of a column is
    [E AS `column`] when [SelectMap], at the lower-cased table name and then
    the lower-cased column name, holds the expression [E], and the name
    between backticks otherwise. *)
Theorem GetColumnsForSelect_entries
    (d : Client) (table : string) (t : Trace) (rows : Rows) (columns : list string) :
  on_query (DB d) (issued t) ("SELECT * FROM `" +:+ table +:+ "` LIMIT 1") = Done rows ->
  Columns rows = Done columns ->
  GetColumnsForSelect ToLower d table t =
    (t ++ [Issued ("SELECT * FROM `" +:+ table +:+ "` LIMIT 1")],
     (map (fun column =>
             match SelectMap d !! ToLower table with
             | Some m =>
                 match m !! ToLower column with
                 | Some E => E +:+ " AS `" +:+ column +:+ "`"
                 | None => "`" +:+ column +:+ "`"
                 end
             | None => "`" +:+ column +:+ "`"
             end) columns,
      None)).
Proof.
  intros Hq Hc. unfold GetColumnsForSelect. run. rewrite Hq, Hc.
  pose proof (range_columns_app d table columns []) as H. simpl in H.
  rewrite H. do 2 f_equal.
  apply map_ext. intros column. unfold select_entry.
  destruct (SelectMap d !! ToLower table) as [m|]; reflexivity.
Qed.

(** C6. The statement sent by [GetRowCountForTable] and the query returned by
    [GetSelectQueryForTable] are the plain [SELECT ... FROM `table`] followed
    by the same clause: [ WHERE e], with [e] as it stands in [WhereMap] under
    the lower-cased table name, when there is such an entry, and nothing when
    there is none. *)
Theorem where_clause_propagation (d : Client) (table : string) (t : Trace) :
  let clause :=
    match WhereMap d !! ToLower table with
    | Some e => " WHERE " +:+ e
    | None => ""
    end in
  fst (GetRowCountForTable ToLower d table t)
    = t ++ [Issued ("SELECT COUNT(*) FROM `" +:+ table +:+ "`" +:+ clause)]
  /\ GetSelectQueryForTable ToLower d table t
     = match GetColumnsForSelect ToLower d table t with
       | (t', (_, Some err)) => (t', ("", Some err))
       | (t', (cols, None)) =>
           (t', ("SELECT " +:+ Join cols ", " +:+ " FROM `" +:+ table +:+ "`"
                 +:+ clause, None))
       end.
Proof.
  assert (Hw : forall q, with_where ToLower d table q =
                 q +:+ match WhereMap d !! ToLower table with
                       | Some e => " WHERE " +:+ e
                       | None => ""
                       end).
  { intros q. unfold with_where.
    destruct (WhereMap d !! ToLower table); [reflexivity | now rewrite append_nil_r]. }
  split.
  - unfold GetRowCountForTable, Scan_into_uint64, count_query. run.
    rewrite Hw, !append_assoc. reflexivity.
  - unfold GetSelectQueryForTable. run.
    destruct (GetColumnsForSelect ToLower d table t) as [t' [cols [err|]]];
      [reflexivity|].
    unfold ret. rewrite Hw. rewrite !append_assoc. reflexivity.
Qed.

Lemma render_values_map (values : list Cell) (vals : list string) :
  render_values values vals = vals ++ map render_cell values.
Proof.
  revert vals. induction values as [|col rest IH]; intros vals; simpl.
  - now rewrite app_nil_r.
  - rewrite IH, <- app_assoc. reflexivity.
Qed.

Lemma escape_app (b1 b2 : string) : escape (b1 +:+ b2) = escape b1 +:+ escape b2.
Proof.
  induction b1 as [|c b1 IH]; [reflexivity|].
  rewrite append_cons. simpl. rewrite IH, append_assoc. reflexivity.
Qed.

(** [strings.Join] of the rendered cells, followed by [tail], spelled out:
    the first cell, then a comma, a space and the cell for each further one. *)
Lemma Join_cells (f : Cell -> string) (col : Cell) (rest : list Cell) (tail : string) :
  Join (map f (col :: rest)) ", " +:+ tail
  = f col +:+ fold_right (fun col' acc => ", " +:+ f col' +:+ acc) tail rest.
Proof.
  revert col. induction rest as [|col' rest IH]; intros col.
  - reflexivity.
  - specialize (IH col'). unfold Join in *.
    change (String.concat ", " (map f (col :: col' :: rest)))
      with (f col +:+ ", " +:+ String.concat ", " (map f (col' :: rest))).
    rewrite !append_assoc, IH. reflexivity.
Qed.

(** C9. A scanned row is rendered as [( v1, v2, ... )]: an opening
    parenthesis and a space, the rendered cells separated by a comma and a
    space, a space and a closing parenthesis (a row without cell as [(  )]).
    The rendering of a null cell is the bare [NULL]; that of any other cell is
    its bytes between single quotes, each single-quote, backslash, NUL,
    newline, carriage return and Ctrl-Z among them replaced by a backslash
    and, in this order, ['], [\], [0], [n], [r] and [Z], every other byte
    kept. *)
Theorem row_rendering (values : list Cell) :
  let cell := fun col : Cell =>
    match col with
    | None => "NULL"
    | Some b => "'" +:+ escape b +:+ "'"
    end in
  row_tuple values
  = match values with
    | [] => "(  )"
    | col :: rest =>
        "( " +:+ cell col
        +:+ fold_right (fun col' tail => ", " +:+ cell col' +:+ tail) " )" rest
    end
  /\ escape "" = ""
  /\ (forall (b1 : string) (c : ascii) (b2 : string),
        escape (b1 +:+ String c b2) =
          escape b1
          +:+ (if Ascii.eqb c quote then String backslash "'"
               else if Ascii.eqb c backslash then String backslash "\"
               else if Ascii.eqb c NUL then String backslash "0"
               else if Ascii.eqb c LF then String backslash "n"
               else if Ascii.eqb c CR then String backslash "r"
               else if Ascii.eqb c SUB then String backslash "Z"
               else String c "")
          +:+ escape b2).
Proof.
  intros cell. split; [|split].
  - unfold row_tuple. rewrite render_values_map. simpl.
    destruct values as [|col rest]; [reflexivity|].
    rewrite (Join_cells render_cell col rest " )"). reflexivity.
  - reflexivity.
  - intros b1 c b2. rewrite escape_app. simpl. f_equal. f_equal.
    unfold escape_byte.
    destruct (Ascii.eqb_spec c NUL) as [->|]; [reflexivity|].
    destruct (Ascii.eqb_spec c LF) as [->|]; [reflexivity|].
    destruct (Ascii.eqb_spec c CR) as [->|]; [reflexivity|].
    destruct (Ascii.eqb_spec c backslash) as [->|]; [reflexivity|].
    destruct (Ascii.eqb_spec c quote) as [->|]; [reflexivity|].
    reflexivity.
Qed.

(** C8. A table without [FilterMap] entry whose row count, under its [WHERE]
    clause if it has one, is zero: [WriteTable] writes the structure section
    (header comment, [DROP TABLE IF EXISTS] statement, the DDL [ddl] followed
    by [;]) and the data header comment with the count, and nothing after it:
    no [LOCK TABLES ... WRITE;] marker, no [INSERT] statement, no [UNLOCK
    TABLES;] marker, and no [SELECT] of the rows is sent. *)
Theorem WriteTable_no_rows
    (d : Client) (table : string) (t : Trace) (name ddl : string) :
  let locks :=
    if UseTableLock d
    then ["LOCK TABLES `" +:+ table +:+ "` READ"; "FLUSH TABLES `" +:+ table +:+ "`"]
    else [] in
  FilterMap d !! ToLower table = None ->
  Scan_string2 (first_row (on_query (DB d) (issued t ++ locks)
                             ("SHOW CREATE TABLE `" +:+ table +:+ "`")))
    = Done (name, ddl) ->
  Scan_uint64 (first_row (on_query (DB d)
                            (issued t ++ locks ++ ["SHOW CREATE TABLE `" +:+ table +:+ "`"])
                            (count_query ToLower d table)))
    = Done 0%N ->
  WriteTable ToLower d table t =
    (t ++ map Issued locks ++
       [Wrote (nl +:+ "--" +:+ nl +:+ "-- Structure for table `" +:+ table
               +:+ "`" +:+ nl +:+ "--" +:+ nl +:+ nl);
        Wrote ("DROP TABLE IF EXISTS `" +:+ table +:+ "`;" +:+ nl);
        Issued ("SHOW CREATE TABLE `" +:+ table +:+ "`");
        Wrote (ddl +:+ ";" +:+ nl);
        Wrote (nl +:+ "--" +:+ nl +:+ "-- Data for table `" +:+ table +:+ "`");
        Issued (count_query ToLower d table);
        Wrote (" -- 0 rows" +:+ nl +:+ "--" +:+ nl +:+ nl)],
     None).
Proof.
  intros locks Hf Hddl Hcnt.
  unfold WriteTable, policy. rewrite Hf. simpl.
  unfold WriteCreateTable, WriteTableHeader, GetRowCountForTable,
    Scan_into_uint64, LockTableReading, FlushTable.
  subst locks. destruct (UseTableLock d); run;
    rewrite ?app_nil_r in Hddl; rewrite ?app_nil_r in Hcnt;
    rewrite <- ?app_assoc in Hddl; rewrite <- ?app_assoc in Hcnt;
    simpl in Hddl, Hcnt;
    repeat (rewrite !issued_app; simpl); rewrite ?app_nil_r, <- ?app_assoc; simpl;
    rewrite Hddl; simpl;
    repeat (rewrite !issued_app; simpl); rewrite ?app_nil_r, <- ?app_assoc; simpl;
    rewrite Hcnt; simpl; rewrite <- ?app_assoc; reflexivity.
Qed.

(** *** Batching *)

Section Batching.

Variable d : Client.
Variable query : string.
Variable ncols : nat.

(** With [ExtendedInsertRows = 0] the loop writes nothing and hands every
    tuple over to the final flush. *)
Lemma loop_unbounded items scanned :
  ExtendedInsertRows d = 0 ->
  all_scanned ncols items scanned ->
  forall data t,
    WriteTableData_loop d query ncols items data t
    = (t, Done (data ++ map row_tuple scanned)).
Proof.
  intros HN Hall. induction Hall as [|item values items scanned Hs _ IH];
    intros data t; simpl.
  - rewrite app_nil_r. reflexivity.
  - rewrite Hs, HN. simpl. rewrite IH, <- app_assoc. reflexivity.
Qed.

(** With [ExtendedInsertRows = N > 0] and fewer than [N] tuples pending, the
    loop writes full batches of [N] tuples and leaves fewer than [N]. *)
Lemma loop_batches items scanned :
  0 < ExtendedInsertRows d ->
  all_scanned ncols items scanned ->
  forall data t,
    Z.of_nat (length data) < ExtendedInsertRows d ->
    exists (batches : list (list string)) (rest : list string),
      WriteTableData_loop d query ncols items data t
      = (t ++ map (fun batch => Wrote (insert_statement query batch)) batches,
         Done rest)
      /\ data ++ map row_tuple scanned = concat batches ++ rest
      /\ Forall (fun batch => Z.of_nat (length batch) = ExtendedInsertRows d) batches
      /\ Z.of_nat (length rest) < ExtendedInsertRows d.
Proof.
  intros HN Hall. induction Hall as [|item values items scanned Hs _ IH];
    intros data t Hlen; simpl.
  - exists [], data. simpl. rewrite !app_nil_r. auto.
  - rewrite Hs.
    destruct (Z.eqb_spec (ExtendedInsertRows d) 0) as [E|_]; [lia|].
    assert (Hl : Z.of_nat (length (data ++ [row_tuple values]))
                 = Z.of_nat (length data) + 1)
      by (rewrite length_app; simpl; lia).
    destruct (Z.of_nat (length (data ++ [row_tuple values])) >=? ExtendedInsertRows d)
      eqn:Hge.
    + apply Z.geb_le in Hge.
      destruct (IH [] (t ++ [Wrote (insert_statement query (data ++ [row_tuple values]))]))
        as (batches & rest & Hrun & Hcat & Hfull & Hrest); [simpl; lia|].
      exists ((data ++ [row_tuple values]) :: batches), rest.
      unfold write_insert. run. rewrite Hrun. simpl in Hcat.
      repeat split.
      * rewrite <- app_assoc. reflexivity.
      * rewrite <- !app_assoc. simpl. rewrite Hcat. reflexivity.
      * constructor; [lia | exact Hfull].
      * exact Hrest.
    + assert (Hlt : Z.of_nat (length (data ++ [row_tuple values])) < ExtendedInsertRows d).
      { destruct (Z.geb_spec (Z.of_nat (length (data ++ [row_tuple values])))
                   (ExtendedInsertRows d)); [discriminate | lia]. }
      destruct (IH (data ++ [row_tuple values]) t Hlt)
        as (batches & rest & Hrun & Hcat & Hfull & Hrest).
      exists batches, rest. rewrite Hrun. repeat split; auto.
      rewrite <- Hcat, <- app_assoc. reflexivity.
Qed.

End Batching.

Lemma length_concat_full (n : Z) (batches : list (list string)) :
  Forall (fun batch => Z.of_nat (length batch) = n) batches ->
  Z.of_nat (length (concat batches)) = n * Z.of_nat (length batches).
Proof.
  induction 1 as [|batch batches Hb _ IH]; simpl; [lia|].
  rewrite length_app. lia.
Qed.

(** The ceiling of [(n * k + r) / n] for a remainder [r] below [n]. *)
Lemma ceil_div (n k r : Z) :
  0 < n -> 0 <= r < n ->
  (n * k + r + n - 1) / n = k + (if r =? 0 then 0 else 1).
Proof.
  intros Hn Hr. destruct (Z.eqb_spec r 0) as [->|Hne].
  - symmetry. apply Z.div_unique with (r := n - 1); lia.
  - symmetry. apply Z.div_unique with (r := r - 1); lia.
Qed.

(** C1. [WriteTableData] on a cursor whose [R] rows all scan, with
    [N = ExtendedInsertRows >= 0]: what it adds to the trace is one write per
    batch, each the statement [INSERT INTO `table` VALUES], a newline, the
    tuples of the batch separated by a comma and a newline, [;] and a newline.
    The batches are the tuples of the rows in cursor order.  There is none
    when [R = 0]; there is one, holding every tuple, when [N = 0] and [R > 0];
    there are [ceil(R / N)] of them when [N > 0], each but the last of exactly
    [N] tuples. *)
Theorem WriteTableData_batches
    (d : Client) (table : string) (t t1 : Trace) (rows : Rows)
    (columns : list string) (scanned : list (list Cell)) :
  0 <= ExtendedInsertRows d ->
  selectAllDataFor ToLower d table t = (t1, Done (rows, columns)) ->
  all_scanned (length columns) (cursor rows) scanned ->
  exists batches : list (list string),
    WriteTableData ToLower d table t
    = (t1 ++ map (fun batch =>
                    Wrote ("INSERT INTO `" +:+ table +:+ "` VALUES" +:+ nl
                           +:+ Join batch ("," +:+ nl) +:+ ";" +:+ nl))
                 batches,
       None)
    /\ concat batches = map row_tuple scanned
    /\ (scanned = [] -> batches = [])
    /\ (ExtendedInsertRows d = 0 -> scanned <> [] -> length batches = 1%nat)
    /\ (0 < ExtendedInsertRows d ->
        Z.of_nat (length batches)
        = (Z.of_nat (length scanned) + ExtendedInsertRows d - 1) / ExtendedInsertRows d
        /\ forall (i : nat) (batch : list string),
             batches !! i = Some batch ->
             (S i < length batches)%nat ->
             Z.of_nat (length batch) = ExtendedInsertRows d).
Proof.
  intros HN Hsel Hall.
  set (query := "INSERT INTO `" +:+ table +:+ "` VALUES").
  assert (Hstmt : forall batch,
             "INSERT INTO `" +:+ table +:+ "` VALUES" +:+ nl
             +:+ Join batch ("," +:+ nl) +:+ ";" +:+ nl
             = insert_statement query batch).
  { intros batch. unfold insert_statement, query. rewrite !append_assoc. reflexivity. }
  assert (Hfinal : forall batches rest,
             WriteTableData_loop d query (length columns) (cursor rows) [] t1
             = (t1 ++ map (fun batch => Wrote (insert_statement query batch)) batches,
                Done rest) ->
             WriteTableData ToLower d table t
             = (t1 ++ map (fun batch =>
                    Wrote ("INSERT INTO `" +:+ table +:+ "` VALUES" +:+ nl
                           +:+ Join batch ("," +:+ nl) +:+ ";" +:+ nl))
                  (batches ++ if (0 <? length rest)%nat then [rest] else []),
                None)).
  { intros batches rest Hrun. unfold WriteTableData. run. rewrite Hsel.
    fold query. rewrite Hrun.
    rewrite (map_ext (fun batch =>
                    Wrote ("INSERT INTO `" +:+ table +:+ "` VALUES" +:+ nl
                           +:+ Join batch ("," +:+ nl) +:+ ";" +:+ nl))
                     (fun batch => Wrote (insert_statement query batch)))
      by (intros; now rewrite Hstmt).
    destruct (0 <? length rest)%nat; unfold write_insert; run.
    - rewrite map_app, app_assoc. reflexivity.
    - rewrite app_nil_r. reflexivity. }
  destruct (Z.eq_dec (ExtendedInsertRows d) 0) as [H0|Hpos].
  - pose proof (loop_unbounded d query (length columns) _ _ H0 Hall [] t1) as Hrun.
    simpl in Hrun.
    specialize (Hfinal [] (map row_tuple scanned)). simpl in Hfinal.
    rewrite app_nil_r in Hfinal. specialize (Hfinal Hrun).
    eexists. split; [exact Hfinal|].
    rewrite length_map.
    destruct scanned as [|row scanned]; simpl.
    + repeat split; auto; try congruence; lia.
    + rewrite app_nil_r. repeat split; auto; try congruence; lia.
  - assert (HN' : 0 < ExtendedInsertRows d) by lia.
    destruct (loop_batches d query (length columns) _ _ HN' Hall [] t1)
      as (batches & rest & Hrun & Hcat & Hfull & Hrest); [simpl; lia|].
    simpl in Hcat.
    specialize (Hfinal batches rest Hrun).
    eexists. split; [exact Hfinal|].
    pose proof (length_concat_full _ _ Hfull) as Hlen.
    assert (HR : Z.of_nat (length scanned)
                 = ExtendedInsertRows d * Z.of_nat (length batches)
                   + Z.of_nat (length rest)).
    { rewrite <- Hlen, <- (length_map row_tuple scanned), Hcat, length_app. lia. }
    repeat split.
    + rewrite Hcat. rewrite concat_app. f_equal.
      destruct rest; simpl; rewrite ?app_nil_r; reflexivity.
    + intros ->. simpl in Hcat. symmetry in Hcat.
      apply app_eq_nil in Hcat as [Hc ->]. simpl.
      destruct batches as [|b bs]; [reflexivity|].
      inversion Hfull as [|? ? Hb _]; subst.
      simpl in Hc. apply app_eq_nil in Hc as [-> _]. simpl in Hb. lia.
    + intros; lia.
    + rewrite HR, length_app.
      rewrite ceil_div by lia.
      destruct rest; simpl; lia.
    + intros i batch Hi Hlt. rewrite length_app in Hlt.
      assert (Hib : (i < length batches)%nat)
        by (destruct (0 <? length rest)%nat; simpl in Hlt; lia).
      rewrite lookup_app_l in Hi by exact Hib.
      rewrite Forall_lookup in Hfull. exact (Hfull i batch Hi).
Qed.

End Properties.

(** ** The engine on the fixtures *)

(** C2. [GetTables] on a cursor whose second row does not scan: the error is
    returned together with the name decoded before it, not with an empty
    list. *)
Example GetTables_scan_error_keeps_names :
  GetTables (client db_tables_broken DefaultExtendedInsertRows) []
  = ([Issued "SHOW FULL TABLES"], (["t1"], Some ErrScanNull)).
Proof. reflexivity. Qed.

(** C3. [WriteCreateTable] fails on a DDL that does not decode, and
    [WriteTable] goes on to the data section and returns [nil]: the error of
    the structure step is dropped. *)
Example WriteTable_drops_structure_error :
  (WriteCreateTable (client db_ddl_broken DefaultExtendedInsertRows) "t" []).2
  = Some ErrScanNull
  /\ WriteTable ascii_lower (client db_ddl_broken DefaultExtendedInsertRows) "t" []
     = ([Wrote (nl +:+ "--" +:+ nl +:+ "-- Structure for table `t`" +:+ nl
                +:+ "--" +:+ nl +:+ nl);
         Wrote ("DROP TABLE IF EXISTS `t`;" +:+ nl);
         Issued "SHOW CREATE TABLE `t`";
         Wrote (nl +:+ "--" +:+ nl +:+ "-- Data for table `t`");
         Issued "SELECT COUNT(*) FROM `t`";
         Wrote (" -- 0 rows" +:+ nl +:+ "--" +:+ nl +:+ nl)],
        None).
Proof. split; reflexivity. Qed.

(** C4. [WriteTableData] fails on a table that counts three rows, and
    [WriteTable] writes the blank line and the [UNLOCK TABLES;] marker after
    it and returns [nil]: the error of the data step is dropped. *)
Example WriteTable_drops_data_error :
  (WriteTableData ascii_lower (client db_select_broken DefaultExtendedInsertRows) "t"
     []).2 = Some ErrBroken
  /\ WriteTable ascii_lower (client db_select_broken DefaultExtendedInsertRows) "t" []
     = ([Wrote (nl +:+ "--" +:+ nl +:+ "-- Structure for table `t`" +:+ nl
                +:+ "--" +:+ nl +:+ nl);
         Wrote ("DROP TABLE IF EXISTS `t`;" +:+ nl);
         Issued "SHOW CREATE TABLE `t`";
         Wrote (ddl_t +:+ ";" +:+ nl);
         Wrote (nl +:+ "--" +:+ nl +:+ "-- Data for table `t`");
         Issued "SELECT COUNT(*) FROM `t`";
         Wrote (" -- 3 rows" +:+ nl +:+ "--" +:+ nl +:+ nl);
         Wrote ("LOCK TABLES `t` WRITE;" +:+ nl);
         Issued "SELECT * FROM `t` LIMIT 1";
         Wrote nl;
         Wrote ("UNLOCK TABLES;" +:+ nl)],
        None).
Proof. split; reflexivity. Qed.

(** The table [t] of three rows dumped in batches of two: two statements. *)
Lemma WriteTableData_batches_witness :
  0 <= ExtendedInsertRows (client db_t 2)
  /\ selectAllDataFor ascii_lower (client db_t 2) "t" []
     = ([Issued "SELECT * FROM `t` LIMIT 1"; Issued "SELECT `id`, `Name` FROM `t`"],
        Done (rows_t, ["id"; "Name"]))
  /\ all_scanned 2 (cursor rows_t)
       [[Some "1"; Some "a'b"]; [Some "2"; None]; [Some "3"; Some "c"]]
  /\ exists batches : list (list string),
       concat batches
       = ["( '1', 'a\'b' )"; "( '2', NULL )"; "( '3', 'c' )"]
       /\ Z.of_nat (length batches) = 2.
Proof.
  assert (H1 : 0 <= ExtendedInsertRows (client db_t 2)) by (simpl; lia).
  assert (H2 : selectAllDataFor ascii_lower (client db_t 2) "t" []
               = ([Issued "SELECT * FROM `t` LIMIT 1";
                   Issued "SELECT `id`, `Name` FROM `t`"],
                  Done (rows_t, ["id"; "Name"]))) by reflexivity.
  assert (H3 : all_scanned 2 (cursor rows_t)
                 [[Some "1"; Some "a'b"]; [Some "2"; None]; [Some "3"; Some "c"]])
    by (repeat constructor).
  split; [exact H1 | split; [exact H2 | split; [exact H3|]]].
  destruct (WriteTableData_batches ascii_lower _ _ _ _ _ _ _ H1 H2 H3)
    as (batches & _ & Hcat & _ & _ & Hpos).
  exists batches. split; [exact Hcat|].
  destruct Hpos as [Hlen _]; [simpl; lia|]. exact Hlen.
Defined.

(** The column [Name] of [t] is substituted under the key [name]. *)
Lemma GetColumnsForSelect_entries_witness :
  on_query (DB client_maps) (issued []) ("SELECT * FROM `" +:+ "t" +:+ "` LIMIT 1")
  = Done (NewRows ["id"; "Name"] [[Some "1"; Some "a'b"]])
  /\ Columns (NewRows ["id"; "Name"] [[Some "1"; Some "a'b"]]) = Done ["id"; "Name"]
  /\ GetColumnsForSelect ascii_lower client_maps "t" []
     = ([Issued "SELECT * FROM `t` LIMIT 1"], (["`id`"; "NOW() AS `Name`"], None)).
Proof.
  split; [reflexivity | split; [reflexivity|]].
  rewrite (GetColumnsForSelect_entries ascii_lower client_maps "t" []
             (NewRows ["id"; "Name"] [[Some "1"; Some "a'b"]]) ["id"; "Name"]
             eq_refl eq_refl).
  reflexivity.
Defined.

(** The table [Skipped] is filtered under the key [skipped]. *)
Lemma WriteTable_ignore_witness :
  FilterMap client_maps !! ascii_lower "Skipped" = Some OperationIgnore
  /\ WriteTable ascii_lower client_maps "Skipped" [] = ([], None).
Proof.
  split; [reflexivity|].
  apply (WriteTable_ignore ascii_lower client_maps "Skipped" []). reflexivity.
Defined.

(** The empty table [t], dumped without table lock. *)
Lemma WriteTable_no_rows_witness :
  FilterMap (client db_empty 100) !! ascii_lower "t" = None
  /\ Scan_string2 (first_row (on_query db_empty [] "SHOW CREATE TABLE `t`"))
     = Done ("t", ddl_t)
  /\ Scan_uint64 (first_row (on_query db_empty ["SHOW CREATE TABLE `t`"]
                               "SELECT COUNT(*) FROM `t`"))
     = Done 0%N
  /\ sink (WriteTable ascii_lower (client db_empty 100) "t" []).1
     = [nl +:+ "--" +:+ nl +:+ "-- Structure for table `t`" +:+ nl +:+ "--" +:+ nl +:+ nl;
        "DROP TABLE IF EXISTS `t`;" +:+ nl;
        ddl_t +:+ ";" +:+ nl;
        nl +:+ "--" +:+ nl +:+ "-- Data for table `t`";
        " -- 0 rows" +:+ nl +:+ "--" +:+ nl +:+ nl].
Proof.
  split; [reflexivity | split; [reflexivity | split; [reflexivity|]]].
  rewrite (WriteTable_no_rows ascii_lower (client db_empty 100) "t" [] "t" ddl_t
             eq_refl eq_refl eq_refl).
  reflexivity.
Defined.

(** The DDL of [t] does not decode: the two lines are in the sink. *)
Lemma WriteCreateTable_failure_keeps_output_witness :
  Scan_string2 (first_row (on_query db_ddl_broken [] "SHOW CREATE TABLE `t`"))
  = Failed ErrScanNull
  /\ WriteCreateTable (client db_ddl_broken 100) "t" []
     = ([Wrote (nl +:+ "--" +:+ nl +:+ "-- Structure for table `t`" +:+ nl
                +:+ "--" +:+ nl +:+ nl);
         Wrote ("DROP TABLE IF EXISTS `t`;" +:+ nl);
         Issued "SHOW CREATE TABLE `t`"],
        Some ErrScanNull).
Proof.
  split; [reflexivity|].
  apply (WriteCreateTable_failure_keeps_output (client db_ddl_broken 100) "t" []
           ErrScanNull).
  reflexivity.
Defined.

(** A row of three cells: a value with a single-quote, a [NULL], a value. *)
Lemma row_rendering_witness :
  row_tuple [Some "a'b"; None; Some "c"] = "( 'a\'b', NULL, 'c' )"
  /\ row_tuple [] = "(  )"
  /\ row_tuple [None] = "( NULL )".
Proof.
  destruct (row_rendering [Some "a'b"; None; Some "c"]) as [E3 _].
  destruct (row_rendering []) as [E0 _].
  destruct (row_rendering [None]) as [E1 _].
  rewrite E3, E0, E1. repeat split.
Defined.

(** ** Further properties of the engine *)

(** *** Listing the tables *)

(** The loop of [GetTables] appends the base tables of the rows it reads. *)
Lemma GetTables_loop_scanned items (pairs : list (string * string)) :
  Forall2 (fun item p => Scan_string2 item = Done p) items pairs ->
  forall rest tables,
    GetTables_loop (items ++ rest) tables
    = GetTables_loop rest
        (tables ++ map fst (List.filter (fun p => String.eqb (snd p) "BASE TABLE") pairs)).
Proof.
  induction 1 as [|item [name type] items pairs Hs _ IH]; intros rest tables; simpl.
  - rewrite app_nil_r. reflexivity.
  - rewrite Hs. destruct (String.eqb type "BASE TABLE"); simpl.
    + rewrite IH, <- app_assoc. reflexivity.
    + apply IH.
Qed.

(** X1. When the listing query succeeds and every row of its cursor scans,
    [GetTables] returns, with a [nil] error, the names of the rows whose type
    is [BASE TABLE], in the order of the cursor; rows of any other type are
    left out. *)
Theorem GetTables_base_tables
    (d : Client) (t : Trace) (rows : Rows) (pairs : list (string * string)) :
  on_query (DB d) (issued t) "SHOW FULL TABLES" = Done rows ->
  Forall2 (fun item p => Scan_string2 item = Done p) (cursor rows) pairs ->
  GetTables d t
  = (t ++ [Issued "SHOW FULL TABLES"],
     (map fst (List.filter (fun p => String.eqb (snd p) "BASE TABLE") pairs), None)).
Proof.
  intros Hq Hall. unfold GetTables. run. rewrite Hq.
  pose proof (GetTables_loop_scanned _ _ Hall [] []) as H.
  rewrite app_nil_r in H. simpl in H. rewrite H. reflexivity.
Qed.

(** X2. When a row of the listing does not scan, [GetTables] stops there: it
    returns the error of that row together with the base tables among the
    rows before it, and the rows after it are not looked at. *)
Theorem GetTables_scan_error
    (d : Client) (t : Trace) (rows : Rows) (good : list (outcome (list Cell)))
    (bad : outcome (list Cell)) (rest : list (outcome (list Cell)))
    (pairs : list (string * string)) (err : error) :
  on_query (DB d) (issued t) "SHOW FULL TABLES" = Done rows ->
  cursor rows = good ++ bad :: rest ->
  Forall2 (fun item p => Scan_string2 item = Done p) good pairs ->
  Scan_string2 bad = Failed err ->
  GetTables d t
  = (t ++ [Issued "SHOW FULL TABLES"],
     (map fst (List.filter (fun p => String.eqb (snd p) "BASE TABLE") pairs),
      Some err)).
Proof.
  intros Hq Hc Hall Hbad. unfold GetTables. run. rewrite Hq, Hc.
  rewrite (GetTables_loop_scanned _ _ Hall). simpl. rewrite Hbad. reflexivity.
Qed.

Section Orchestration.

Variable ToLower : string -> string.

(** *** The whole database *)

Lemma GetTables_trace (d : Client) (t : Trace) :
  (GetTables d t).1 = t ++ [Issued "SHOW FULL TABLES"].
Proof.
  unfold GetTables. run.
  destruct (on_query (DB d) (issued t) "SHOW FULL TABLES"); reflexivity.
Qed.

(** X3. When listing the tables fails, by the query or by a row that does
    not scan, [WriteTables] returns that error: the listing is the only
    statement it has sent, nothing is written, and no table is dumped, not
    even those [GetTables] had decoded before the error. *)
Theorem WriteTables_listing_failure (d : Client) (t : Trace) (err : error) :
  (GetTables d t).2.2 = Some err ->
  WriteTables ToLower d t = (t ++ [Issued "SHOW FULL TABLES"], Some err).
Proof.
  intros H. pose proof (GetTables_trace d t) as Ht.
  unfold WriteTables. run.
  destruct (GetTables d t) as [t' [tables [e|]]]; simpl in *; [|discriminate].
  inversion H; subst. reflexivity.
Qed.


(** Dumping two lists of tables in a row. *)
Lemma WriteTables_loop_app (d : Client) (l1 l2 : list string) (t : Trace) :
  WriteTables_loop ToLower d (l1 ++ l2) t
  = match WriteTables_loop ToLower d l1 t with
    | (t', Some err) => (t', Some err)
    | (t', None) => WriteTables_loop ToLower d l2 t'
    end.
Proof.
  revert t. induction l1 as [|table l1 IH]; intros t; simpl; [reflexivity|].
  run. destruct (WriteTable ToLower d table t) as [t' [err|]]; [reflexivity|].
  apply IH.
Qed.

(** X5. The first table whose dump fails ends the dump of the database: its
    error is returned, what was written up to there stays in the trace, and
    the tables after it are neither read nor written. *)
Theorem WriteTables_first_failure
    (d : Client) (done : list string) (table : string) (todo : list string)
    (t t1 t2 : Trace) (err : error) :
  WriteTables_loop ToLower d done t = (t1, None) ->
  WriteTable ToLower d table t1 = (t2, Some err) ->
  WriteTables_loop ToLower d (done ++ table :: todo) t = (t2, Some err).
Proof.
  intros Hdone Hfail. rewrite WriteTables_loop_app, Hdone. simpl.
  run. rewrite Hfail. reflexivity.
Qed.

End Orchestration.

Section TableDump.

Variable ToLower : string -> string.

(** *** One table *)

(** [WriteCreateTable] sends one statement, whether its result decodes or
    not. *)
Lemma WriteCreateTable_issued (d : Client) (table : string) (t : Trace) :
  issued (WriteCreateTable d table t).1
  = issued t ++ ["SHOW CREATE TABLE `" +:+ table +:+ "`"].
Proof.
  unfold WriteCreateTable. run.
  destruct (Scan_string2 _) as [[name ddl]|err]; simpl;
    repeat (rewrite !issued_app; simpl); rewrite ?app_nil_r; reflexivity.
Qed.

(** The two outcomes of [WriteTableHeader]. *)
Lemma WriteTableHeader_cases (d : Client) (table : string) (t : Trace) :
  WriteTableHeader ToLower d table t
  = match Scan_uint64 (first_row (on_query (DB d) (issued t)
                                    (count_query ToLower d table))) with
    | Failed err =>
        (t ++ [Wrote (nl +:+ "--" +:+ nl +:+ "-- Data for table `" +:+ table +:+ "`");
               Issued (count_query ToLower d table)],
         (0%N, Some err))
    | Done count =>
        (t ++ [Wrote (nl +:+ "--" +:+ nl +:+ "-- Data for table `" +:+ table +:+ "`");
               Issued (count_query ToLower d table);
               Wrote (" -- " +:+ fmt_d count +:+ " rows" +:+ nl +:+ "--" +:+ nl +:+ nl)],
         (count, None))
    end.
Proof.
  unfold WriteTableHeader, GetRowCountForTable, Scan_into_uint64. run.
  rewrite issued_app. simpl. rewrite app_nil_r.
  destruct (Scan_uint64 _); simpl; rewrite <- !app_assoc; reflexivity.
Qed.

(** [WriteTable] on a table that is neither ignored nor structure-only, step
    by step. *)
Lemma WriteTable_steps (d : Client) (table : string) (t : Trace) :
  policy ToLower d table <> OperationIgnore ->
  policy ToLower d table <> OperationNoData ->
  WriteTable ToLower d table t
  = let t1 := (WriteCreateTable d table (t ++ map Issued (read_locks d table))).1 in
    match WriteTableHeader ToLower d table t1 with
    | (t2, (_, Some err)) => (t2, Some err)
    | (t2, (cnt, None)) =>
        if (0 <? cnt)%N then
          ((WriteTableData ToLower d table
              (t2 ++ [Wrote ("LOCK TABLES `" +:+ table +:+ "` WRITE;" +:+ nl)])).1
           ++ [Wrote nl; Wrote ("UNLOCK TABLES;" +:+ nl)]
           ++ (if UseTableLock d then [Issued "UNLOCK TABLES"] else []),
           None)
        else (t2, None)
    end.
Proof.
  intros Hi Hn. unfold WriteTable, read_locks.
  destruct (String.eqb_spec (policy ToLower d table) OperationIgnore) as [E|_];
    [contradiction|].
  destruct (String.eqb_spec (policy ToLower d table) OperationNoData) as [E|_];
    [contradiction|].
  unfold LockTableReading, FlushTable, WriteTableLockWrite, WriteUnlockTables,
    UnlockTables.
  destruct (UseTableLock d); run.
  - rewrite <- app_assoc. simpl.
    destruct (WriteCreateTable d table _) as [t1 r1]. simpl.
    destruct (WriteTableHeader ToLower d table t1) as [t2 [cnt [err|]]]; [reflexivity|].
    destruct (0 <? cnt)%N; [|reflexivity].
    destruct (WriteTableData ToLower d table _) as [t3 r3]. simpl.
    rewrite <- !app_assoc. reflexivity.
  - rewrite app_nil_r.
    destruct (WriteCreateTable d table t) as [t1 r1]. simpl.
    destruct (WriteTableHeader ToLower d table t1) as [t2 [cnt [err|]]]; [reflexivity|].
    destruct (0 <? cnt)%N; [|reflexivity].
    destruct (WriteTableData ToLower d table _) as [t3 r3]. simpl.
    rewrite <- ?app_assoc, ?app_nil_r. reflexivity.
Qed.

(** X6. A table whose policy is [nodata] gets its structure section and
    nothing else: [WriteTable] does what [WriteCreateTable] does, sends no
    lock, count or row query even under [UseTableLock], and returns [nil]
    whether or not the DDL could be fetched. *)
Theorem WriteTable_nodata (d : Client) (table : string) (t : Trace) :
  FilterMap d !! ToLower table = Some OperationNoData ->
  WriteTable ToLower d table t = ((WriteCreateTable d table t).1, None)
  /\ issued (WriteTable ToLower d table t).1
     = issued t ++ ["SHOW CREATE TABLE `" +:+ table +:+ "`"].
Proof.
  intros H.
  assert (E : WriteTable ToLower d table t = ((WriteCreateTable d table t).1, None)).
  { unfold WriteTable, policy. rewrite H. simpl. run.
    destruct (WriteCreateTable d table t) as [t1 r1]. reflexivity. }
  split; [exact E|]. rewrite E. simpl. apply WriteCreateTable_issued.
Qed.

(** X7. [WriteTable] returns an error in one case only: the table is neither
    ignored nor structure-only and its row count cannot be read; the error is
    that of the count.  No failure of the lock, the flush, the DDL, the row
    query or the unlock reaches the caller. *)
Theorem WriteTable_error_iff (d : Client) (table : string) (t : Trace) (err : error) :
  (WriteTable ToLower d table t).2 = Some err
  <-> policy ToLower d table <> OperationIgnore
      /\ policy ToLower d table <> OperationNoData
      /\ Scan_uint64
           (first_row
              (on_query (DB d)
                 (issued t ++ read_locks d table
                  ++ ["SHOW CREATE TABLE `" +:+ table +:+ "`"])
                 (count_query ToLower d table)))
         = Failed err.
Proof.
  destruct (String.eqb_spec (policy ToLower d table) OperationIgnore) as [Ei|Hi].
  { unfold WriteTable. rewrite Ei. simpl. split; [discriminate|].
    intros (H & _). contradiction. }
  destruct (String.eqb_spec (policy ToLower d table) OperationNoData) as [En|Hn].
  { unfold WriteTable. rewrite En. simpl. run.
    destruct (WriteCreateTable d table t) as [t1 r1]. simpl.
    split; [discriminate|]. intros (_ & H & _). contradiction. }
  rewrite (WriteTable_steps d table t Hi Hn). cbv zeta.
  rewrite WriteTableHeader_cases, WriteCreateTable_issued, issued_app.
  assert (E : issued (map Issued (read_locks d table)) = read_locks d table).
  { unfold read_locks. destruct (UseTableLock d); reflexivity. }
  rewrite E, <- app_assoc.
  destruct (Scan_uint64 _) as [cnt|e]; simpl.
  - destruct (0 <? cnt)%N; simpl; split; try discriminate;
      intros (_ & _ & H); discriminate.
  - split.
    + intros H. inversion H; subst. auto.
    + intros (_ & _ & H). inversion H; subst. reflexivity.
Qed.

(** X8. When the count of a fully dumped table cannot be read, [WriteTable]
    stops in the middle of the data header: after the structure step the
    trace ends with the first half of the comment, not terminated by a
    newline, and the count query.  Under [UseTableLock] the read lock has been
    taken and [UNLOCK TABLES] is not sent. *)
Theorem WriteTable_count_failure (d : Client) (table : string) (t : Trace) (err : error) :
  policy ToLower d table <> OperationIgnore ->
  policy ToLower d table <> OperationNoData ->
  Scan_uint64
    (first_row
       (on_query (DB d)
          (issued t ++ read_locks d table ++ ["SHOW CREATE TABLE `" +:+ table +:+ "`"])
          (count_query ToLower d table)))
  = Failed err ->
  WriteTable ToLower d table t
  = ((WriteCreateTable d table (t ++ map Issued (read_locks d table))).1
     ++ [Wrote (nl +:+ "--" +:+ nl +:+ "-- Data for table `" +:+ table +:+ "`");
         Issued (count_query ToLower d table)],
     Some err)
  /\ issued (WriteTable ToLower d table t).1
     = issued t ++ read_locks d table
       ++ ["SHOW CREATE TABLE `" +:+ table +:+ "`"; count_query ToLower d table].
Proof.
  intros Hi Hn Hc.
  assert (E : issued (map Issued (read_locks d table)) = read_locks d table).
  { unfold read_locks. destruct (UseTableLock d); reflexivity. }
  assert (R : WriteTable ToLower d table t
    = ((WriteCreateTable d table (t ++ map Issued (read_locks d table))).1
       ++ [Wrote (nl +:+ "--" +:+ nl +:+ "-- Data for table `" +:+ table +:+ "`");
           Issued (count_query ToLower d table)],
       Some err)).
  { rewrite (WriteTable_steps d table t Hi Hn). cbv zeta.
    rewrite WriteTableHeader_cases, WriteCreateTable_issued, issued_app, E,
      <- app_assoc, Hc. reflexivity. }
  split; [exact R|]. rewrite R. simpl.
  rewrite issued_app, WriteCreateTable_issued, issued_app, E. simpl.
  rewrite <- !app_assoc. reflexivity.
Qed.

(** X9. A table that counts [cnt > 0] rows: after the structure step and the
    data header, [WriteTable] writes the [LOCK TABLES ... WRITE;] marker, runs
    [WriteTableData], writes a blank line and the [UNLOCK TABLES;] marker,
    sends [UNLOCK TABLES] under [UseTableLock], and returns [nil] whatever
    [WriteTableData] returned. *)
Theorem WriteTable_with_rows (d : Client) (table : string) (t : Trace) (cnt : N) :
  policy ToLower d table <> OperationIgnore ->
  policy ToLower d table <> OperationNoData ->
  Scan_uint64
    (first_row
       (on_query (DB d)
          (issued t ++ read_locks d table ++ ["SHOW CREATE TABLE `" +:+ table +:+ "`"])
          (count_query ToLower d table)))
  = Done cnt ->
  (0 < cnt)%N ->
  WriteTable ToLower d table t
  = ((WriteTableData ToLower d table
        ((WriteCreateTable d table (t ++ map Issued (read_locks d table))).1
         ++ [Wrote (nl +:+ "--" +:+ nl +:+ "-- Data for table `" +:+ table +:+ "`");
             Issued (count_query ToLower d table);
             Wrote (" -- " +:+ fmt_d cnt +:+ " rows" +:+ nl +:+ "--" +:+ nl +:+ nl);
             Wrote ("LOCK TABLES `" +:+ table +:+ "` WRITE;" +:+ nl)])).1
     ++ [Wrote nl; Wrote ("UNLOCK TABLES;" +:+ nl)]
     ++ (if UseTableLock d then [Issued "UNLOCK TABLES"] else []),
     None).
Proof.
  intros Hi Hn Hc Hpos.
  assert (E : issued (map Issued (read_locks d table)) = read_locks d table).
  { unfold read_locks. destruct (UseTableLock d); reflexivity. }
  rewrite (WriteTable_steps d table t Hi Hn). cbv zeta.
  rewrite WriteTableHeader_cases, WriteCreateTable_issued, issued_app, E,
    <- app_assoc, Hc.
  apply N.ltb_lt in Hpos. rewrite Hpos.
  rewrite <- !app_assoc. reflexivity.
Qed.

End TableDump.

Section RowStream.

Variable ToLower : string -> string.

(** *** The rows of a table *)

(** The loop of [WriteTableData] over the rows that scan, then over what
    follows them. *)
Lemma WriteTableData_loop_app (d : Client) (query : string) (ncols : nat)
    (items1 items2 : list (outcome (list Cell))) (data : list string) (t : Trace) :
  WriteTableData_loop d query ncols (items1 ++ items2) data t
  = match WriteTableData_loop d query ncols items1 data t with
    | (t', Done data') => WriteTableData_loop d query ncols items2 data' t'
    | (t', Failed err) => (t', Failed err)
    end.
Proof.
  revert data t. induction items1 as [|item items1 IH]; intros data t; simpl;
    [reflexivity|].
  destruct (Scan_raw ncols item) as [values|err]; [|reflexivity].
  destruct (ExtendedInsertRows d =? 0); [apply IH|].
  destruct (Z.of_nat (length (data ++ [row_tuple values])) >=? ExtendedInsertRows d);
    [|apply IH].
  unfold write_insert. run. apply IH.
Qed.

(** The statement [WriteTableData] writes for a batch. *)
Lemma insert_statement_text (table : string) (batch : list string) :
  insert_statement ("INSERT INTO `" +:+ table +:+ "` VALUES") batch
  = "INSERT INTO `" +:+ table +:+ "` VALUES" +:+ nl
    +:+ Join batch ("," +:+ nl) +:+ ";" +:+ nl.
Proof. unfold insert_statement. rewrite !append_assoc. reflexivity. Qed.

(** X10. A row that cannot be read stops [WriteTableData] with its error.
    With [ExtendedInsertRows = N > 0], the full batches of [N] tuples written
    before it stay in the sink, and the tuples read since the last full
    batch, fewer than [N], are written nowhere. *)
Theorem WriteTableData_scan_error
    (d : Client) (table : string) (t t1 : Trace) (rows : Rows)
    (columns : list string) (good : list (outcome (list Cell)))
    (bad : outcome (list Cell)) (rest : list (outcome (list Cell)))
    (scanned : list (list Cell)) (err : error) :
  0 < ExtendedInsertRows d ->
  selectAllDataFor ToLower d table t = (t1, Done (rows, columns)) ->
  cursor rows = good ++ bad :: rest ->
  all_scanned (length columns) good scanned ->
  Scan_raw (length columns) bad = Failed err ->
  exists (batches : list (list string)) (lost : list string),
    WriteTableData ToLower d table t
    = (t1 ++ map (fun batch =>
                    Wrote ("INSERT INTO `" +:+ table +:+ "` VALUES" +:+ nl
                           +:+ Join batch ("," +:+ nl) +:+ ";" +:+ nl))
                 batches,
       Some err)
    /\ concat batches ++ lost = map row_tuple scanned
    /\ Forall (fun batch => Z.of_nat (length batch) = ExtendedInsertRows d) batches
    /\ Z.of_nat (length lost) < ExtendedInsertRows d.
Proof.
  intros HN Hsel Hc Hall Hbad.
  destruct (loop_batches d ("INSERT INTO `" +:+ table +:+ "` VALUES")
              (length columns) _ _ HN Hall [] t1)
    as (batches & lost & Hrun & Hcat & Hfull & Hlost); [simpl; lia|].
  exists batches, lost. simpl in Hcat. repeat split; auto.
  unfold WriteTableData. run. rewrite Hsel, Hc, WriteTableData_loop_app, Hrun.
  simpl. rewrite Hbad. do 2 f_equal.
  apply map_ext. intros batch. rewrite insert_statement_text. reflexivity.
Qed.

(** X11. With [ExtendedInsertRows = 0], a row that cannot be read leaves the
    sink without any [INSERT] statement: every tuple read before it is lost,
    and the error is returned. *)
Theorem WriteTableData_scan_error_unbounded
    (d : Client) (table : string) (t t1 : Trace) (rows : Rows)
    (columns : list string) (good : list (outcome (list Cell)))
    (bad : outcome (list Cell)) (rest : list (outcome (list Cell)))
    (scanned : list (list Cell)) (err : error) :
  ExtendedInsertRows d = 0 ->
  selectAllDataFor ToLower d table t = (t1, Done (rows, columns)) ->
  cursor rows = good ++ bad :: rest ->
  all_scanned (length columns) good scanned ->
  Scan_raw (length columns) bad = Failed err ->
  WriteTableData ToLower d table t = (t1, Some err).
Proof.
  intros HN Hsel Hc Hall Hbad.
  unfold WriteTableData. run.
  rewrite Hsel, Hc, WriteTableData_loop_app.
  rewrite (loop_unbounded d _ _ _ _ HN Hall). simpl. rewrite Hbad. reflexivity.
Qed.

(** With [ExtendedInsertRows] negative or one, every row is flushed as soon
    as it is read. *)
Lemma loop_row_by_row (d : Client) (query : string) (ncols : nat) items scanned :
  ExtendedInsertRows d <> 0 ->
  ExtendedInsertRows d <= 1 ->
  all_scanned ncols items scanned ->
  forall t,
    WriteTableData_loop d query ncols items [] t
    = (t ++ map (fun values => Wrote (insert_statement query [row_tuple values])) scanned,
       Done []).
Proof.
  intros H0 H1 Hall. induction Hall as [|item values items scanned Hs _ IH];
    intros t; simpl.
  - rewrite app_nil_r. reflexivity.
  - rewrite Hs.
    destruct (Z.eqb_spec (ExtendedInsertRows d) 0) as [E|_]; [contradiction|].
    simpl.
    match goal with
    | |- context [if ?b then _ else _] => destruct b eqn:Hge
    end.
    + unfold write_insert. run. rewrite IH, <- app_assoc. reflexivity.
    + simpl in Hge. rewrite Z.geb_leb in Hge. apply Z.leb_gt in Hge. lia.
Qed.

(** X12. A negative [ExtendedInsertRows] (the field is a signed [int]) does
    not disable batching as zero does: like [1], it makes [WriteTableData]
    write one [INSERT] statement per row, each with the single tuple of that
    row. *)
Theorem WriteTableData_row_by_row
    (d : Client) (table : string) (t t1 : Trace) (rows : Rows)
    (columns : list string) (scanned : list (list Cell)) :
  ExtendedInsertRows d <> 0 ->
  ExtendedInsertRows d <= 1 ->
  selectAllDataFor ToLower d table t = (t1, Done (rows, columns)) ->
  all_scanned (length columns) (cursor rows) scanned ->
  WriteTableData ToLower d table t
  = (t1 ++ map (fun values =>
                  Wrote ("INSERT INTO `" +:+ table +:+ "` VALUES" +:+ nl
                         +:+ row_tuple values +:+ ";" +:+ nl))
               scanned,
     None).
Proof.
  intros H0 H1 Hsel Hall. unfold WriteTableData. run. rewrite Hsel.
  rewrite (loop_row_by_row d _ _ _ _ H0 H1 Hall). simpl. do 2 f_equal.
  apply map_ext. intros values. rewrite insert_statement_text. reflexivity.
Qed.

(** *** Queries *)

(** X13. When the column probe succeeds, the query of
    [GetSelectQueryForTable] is [SELECT], the entries of the columns in the
    order of the database separated by a comma and a space, [FROM] and the
    table between backticks, followed by the [WHERE] clause of the table if it
    has one. *)
Theorem GetSelectQueryForTable_text
    (d : Client) (table : string) (t : Trace) (rows : Rows) (columns : list string) :
  on_query (DB d) (issued t) ("SELECT * FROM `" +:+ table +:+ "` LIMIT 1") = Done rows ->
  Columns rows = Done columns ->
  GetSelectQueryForTable ToLower d table t
  = (t ++ [Issued ("SELECT * FROM `" +:+ table +:+ "` LIMIT 1")],
     ("SELECT " +:+ Join (map (select_entry ToLower d table) columns) ", "
      +:+ " FROM `" +:+ table +:+ "`"
      +:+ match WhereMap d !! ToLower table with
          | Some e => " WHERE " +:+ e
          | None => ""
          end,
      None)).
Proof.
  intros Hq Hc. unfold GetSelectQueryForTable, GetColumnsForSelect. run.
  rewrite Hq, Hc. simpl.
  pose proof (range_columns_app ToLower d table columns []) as H. simpl in H.
  rewrite H. unfold with_where.
  destruct (WhereMap d !! ToLower table) as [e|].
  - rewrite !append_assoc. reflexivity.
  - rewrite append_nil_r. reflexivity.
Qed.

(** X14. When the column probe fails, by the query or by the column names,
    the error goes up unchanged through [GetColumnsForSelect],
    [GetSelectQueryForTable] and [selectAllDataFor] to [WriteTableData]: the
    probe is the only statement sent, the rows are never selected and nothing
    is written. *)
Theorem probe_failure_propagates
    (d : Client) (table : string) (t : Trace) (err : error) :
  on_query (DB d) (issued t) ("SELECT * FROM `" +:+ table +:+ "` LIMIT 1") = Failed err
  \/ (exists rows,
        on_query (DB d) (issued t) ("SELECT * FROM `" +:+ table +:+ "` LIMIT 1")
        = Done rows
        /\ Columns rows = Failed err) ->
  GetColumnsForSelect ToLower d table t
  = (t ++ [Issued ("SELECT * FROM `" +:+ table +:+ "` LIMIT 1")], ([], Some err))
  /\ GetSelectQueryForTable ToLower d table t
     = (t ++ [Issued ("SELECT * FROM `" +:+ table +:+ "` LIMIT 1")], ("", Some err))
  /\ WriteTableData ToLower d table t
     = (t ++ [Issued ("SELECT * FROM `" +:+ table +:+ "` LIMIT 1")], Some err).
Proof.
  intros H.
  assert (E : GetColumnsForSelect ToLower d table t
              = (t ++ [Issued ("SELECT * FROM `" +:+ table +:+ "` LIMIT 1")],
                 ([], Some err))).
  { unfold GetColumnsForSelect. run.
    destruct H as [-> | (rows & -> & Hc)]; [reflexivity|].
    rewrite Hc. reflexivity. }
  split; [exact E|].
  unfold WriteTableData, selectAllDataFor, GetSelectQueryForTable. run.
  rewrite E. split; reflexivity.
Qed.

(** The loop over the rows only writes. *)
Lemma WriteTableData_loop_issued (d : Client) (query : string) (ncols : nat)
    (items : list (outcome (list Cell))) (data : list string) (t : Trace) :
  issued (WriteTableData_loop d query ncols items data t).1 = issued t.
Proof.
  revert data t. induction items as [|item items IH]; intros data t; simpl;
    [reflexivity|].
  destruct (Scan_raw ncols item) as [values|err]; [|reflexivity].
  destruct (ExtendedInsertRows d =? 0); [apply IH|].
  match goal with
  | |- context [if ?b then _ else _] => destruct b
  end; [|apply IH].
  unfold write_insert. run. rewrite IH, issued_app. simpl. apply app_nil_r.
Qed.

(** X15. [WriteTableData] sends the column probe and, when the probe gave it
    a query, that query, and no other statement: reading the rows and writing
    the [INSERT] statements sends nothing to the database. *)
Theorem WriteTableData_statements (d : Client) (table : string) (t : Trace) :
  issued (WriteTableData ToLower d table t).1
  = issued t
    ++ ("SELECT * FROM `" +:+ table +:+ "` LIMIT 1")
       :: match (GetSelectQueryForTable ToLower d table t).2 with
          | (query, None) => [query]
          | (_, Some _) => []
          end.
Proof.
  assert (Hg : (GetSelectQueryForTable ToLower d table t).1
               = t ++ [Issued ("SELECT * FROM `" +:+ table +:+ "` LIMIT 1")]).
  { unfold GetSelectQueryForTable, GetColumnsForSelect. run.
    destruct (on_query (DB d) (issued t) _) as [rows|e]; [|reflexivity].
    destruct (Columns rows); reflexivity. }
  unfold WriteTableData, selectAllDataFor. run.
  destruct (GetSelectQueryForTable ToLower d table t) as [t1 [query [e|]]];
    simpl in *; subst t1.
  - rewrite issued_app. reflexivity.
  - destruct (on_query (DB d) _ query) as [rows|e]; simpl.
    + destruct (Columns rows) as [columns|e]; simpl.
      * pose proof (WriteTableData_loop_issued d
                      ("INSERT INTO `" +:+ table +:+ "` VALUES") (length columns)
                      (cursor rows) []
                      ((t ++ [Issued ("SELECT * FROM `" +:+ table +:+ "` LIMIT 1")])
                       ++ [Issued query])) as Hl.
        destruct (WriteTableData_loop d _ _ _ _ _) as [t2 [data|e]]; simpl in *.
        -- destruct (0 <? length data)%nat; unfold write_insert; run;
             rewrite ?issued_app, Hl, !issued_app; simpl;
             rewrite <- ?app_assoc, ?app_nil_r; reflexivity.
        -- rewrite Hl, !issued_app. simpl. rewrite <- app_assoc. reflexivity.
      * rewrite !issued_app. simpl. rewrite <- app_assoc. reflexivity.
    + rewrite !issued_app. simpl. rewrite <- app_assoc. reflexivity.
Qed.

End RowStream.

Section KeyNormalisation.

Variable ToLower : string -> string.

(** Lower-casing a lower-cased name changes nothing. *)
Hypothesis ToLower_idempotent : forall s, ToLower (ToLower s) = ToLower s.

(** *** Keys of the configuration maps *)


End KeyNormalisation.



(** ** The further properties on the fixtures *)

(** The listing of [db_t]: a base table and a view. *)
Lemma GetTables_base_tables_witness :
  on_query (DB (client db_t 100)) (issued []) "SHOW FULL TABLES"
  = Done (NewRows ["Tables_in_database"; "Table_type"]
            [[Some "t"; Some "BASE TABLE"]; [Some "v"; Some "VIEW"]])
  /\ Forall2 (fun item p => Scan_string2 item = Done p)
       (cursor (NewRows ["Tables_in_database"; "Table_type"]
                  [[Some "t"; Some "BASE TABLE"]; [Some "v"; Some "VIEW"]]))
       [("t", "BASE TABLE"); ("v", "VIEW")]
  /\ GetTables (client db_t 100) [] = ([Issued "SHOW FULL TABLES"], (["t"], None)).
Proof.
  assert (H2 : Forall2 (fun item p => Scan_string2 item = Done p)
       (cursor (NewRows ["Tables_in_database"; "Table_type"]
                  [[Some "t"; Some "BASE TABLE"]; [Some "v"; Some "VIEW"]]))
       [("t", "BASE TABLE"); ("v", "VIEW")]) by (repeat constructor).
  split; [reflexivity | split; [exact H2|]].
  rewrite (GetTables_base_tables (client db_t 100) [] _ _ eq_refl H2). reflexivity.
Defined.

(** The listing of [db_tables_broken]: the second row does not scan. *)
Lemma GetTables_scan_error_witness :
  on_query (DB (client db_tables_broken 100)) (issued []) "SHOW FULL TABLES"
  = Done (NewRows ["Tables_in_database"; "Table_type"]
            [[Some "t1"; Some "BASE TABLE"]; [Some "1"; None]])
  /\ cursor (NewRows ["Tables_in_database"; "Table_type"]
               [[Some "t1"; Some "BASE TABLE"]; [Some "1"; None]])
     = [Done [Some "t1"; Some "BASE TABLE"]] ++ Done [Some "1"; None] :: []
  /\ Forall2 (fun item p => Scan_string2 item = Done p)
       [Done [Some "t1"; Some "BASE TABLE"]] [("t1", "BASE TABLE")]
  /\ Scan_string2 (Done [Some "1"; None]) = Failed ErrScanNull
  /\ (GetTables (client db_tables_broken 100) []).2 = (["t1"], Some ErrScanNull).
Proof.
  assert (H3 : Forall2 (fun item p => Scan_string2 item = Done p)
       [Done [Some "t1"; Some "BASE TABLE"]] [("t1", "BASE TABLE")])
    by (repeat constructor).
  split; [reflexivity | split; [reflexivity | split; [exact H3 | split; [reflexivity|]]]].
  rewrite (GetTables_scan_error (client db_tables_broken 100) []
             (NewRows ["Tables_in_database"; "Table_type"]
                [[Some "t1"; Some "BASE TABLE"]; [Some "1"; None]])
             [Done [Some "t1"; Some "BASE TABLE"]] (Done [Some "1"; None]) []
             [("t1", "BASE TABLE")] ErrScanNull
             eq_refl eq_refl H3 eq_refl).
  reflexivity.
Defined.

Lemma WriteTables_listing_failure_witness :
  (GetTables (client db_tables_broken 100) []).2.2 = Some ErrScanNull
  /\ WriteTables ascii_lower (client db_tables_broken 100) []
     = ([Issued "SHOW FULL TABLES"], Some ErrScanNull).
Proof.
  split; [reflexivity|].
  apply (WriteTables_listing_failure ascii_lower (client db_tables_broken 100) []
           ErrScanNull).
  reflexivity.
Defined.


(** The tables of [db_three]: [b] is dumped, [t] fails, [c] is not reached. *)
Lemma WriteTables_first_failure_witness :
  WriteTables_loop ascii_lower (client db_three 100) ["b"] []
  = ((WriteTables_loop ascii_lower (client db_three 100) ["b"] []).1, None)
  /\ WriteTable ascii_lower (client db_three 100) "t"
       (WriteTables_loop ascii_lower (client db_three 100) ["b"] []).1
     = ((WriteTable ascii_lower (client db_three 100) "t"
           (WriteTables_loop ascii_lower (client db_three 100) ["b"] []).1).1,
        Some ErrScanNull)
  /\ (WriteTables_loop ascii_lower (client db_three 100) (["b"] ++ "t" :: ["c"]) []).2
     = Some ErrScanNull
  /\ issued
       (WriteTables_loop ascii_lower (client db_three 100) (["b"] ++ "t" :: ["c"]) []).1
     = ["SHOW CREATE TABLE `b`"; "SELECT COUNT(*) FROM `b`";
        "SHOW CREATE TABLE `t`"; "SELECT COUNT(*) FROM `t`"].
Proof.
  assert (H1 : WriteTables_loop ascii_lower (client db_three 100) ["b"] []
    = ((WriteTables_loop ascii_lower (client db_three 100) ["b"] []).1, None))
    by reflexivity.
  assert (H2 : WriteTable ascii_lower (client db_three 100) "t"
       (WriteTables_loop ascii_lower (client db_three 100) ["b"] []).1
     = ((WriteTable ascii_lower (client db_three 100) "t"
           (WriteTables_loop ascii_lower (client db_three 100) ["b"] []).1).1,
        Some ErrScanNull)) by reflexivity.
  split; [exact H1 | split; [exact H2|]].
  rewrite (WriteTables_first_failure ascii_lower (client db_three 100)
             ["b"] "t" ["c"] [] _ _ ErrScanNull H1 H2).
  split; reflexivity.
Defined.

(** A structure-only table the database does not know: nothing but the
    structure step, and [nil]. *)
Lemma WriteTable_nodata_witness :
  FilterMap (client_lock db_t 100) !! ascii_lower "Schema_Only" = Some OperationNoData
  /\ (WriteTable ascii_lower (client_lock db_t 100) "Schema_Only" []).2 = None
  /\ issued (WriteTable ascii_lower (client_lock db_t 100) "Schema_Only" []).1
     = ["SHOW CREATE TABLE `Schema_Only`"].
Proof.
  assert (H : FilterMap (client_lock db_t 100) !! ascii_lower "Schema_Only"
              = Some OperationNoData) by reflexivity.
  split; [exact H|].
  destruct (WriteTable_nodata ascii_lower (client_lock db_t 100) "Schema_Only" [] H)
    as [E1 E2].
  split; [rewrite E1; reflexivity | exact E2].
Defined.

(** The count of [t] is [NULL]: the read lock is taken and never released. *)
Lemma WriteTable_count_failure_witness :
  policy ascii_lower (client_lock db_count_broken 100) "t" <> OperationIgnore
  /\ policy ascii_lower (client_lock db_count_broken 100) "t" <> OperationNoData
  /\ Scan_uint64
       (first_row
          (on_query (DB (client_lock db_count_broken 100))
             (issued [] ++ read_locks (client_lock db_count_broken 100) "t"
              ++ ["SHOW CREATE TABLE `" +:+ "t" +:+ "`"])
             (count_query ascii_lower (client_lock db_count_broken 100) "t")))
     = Failed ErrScanNull
  /\ (WriteTable ascii_lower (client_lock db_count_broken 100) "t" []).2
     = Some ErrScanNull
  /\ issued (WriteTable ascii_lower (client_lock db_count_broken 100) "t" []).1
     = ["LOCK TABLES `t` READ"; "FLUSH TABLES `t`"; "SHOW CREATE TABLE `t`";
        "SELECT COUNT(*) FROM `t`"].
Proof.
  assert (Hi : policy ascii_lower (client_lock db_count_broken 100) "t"
               <> OperationIgnore) by (vm_compute; discriminate).
  assert (Hn : policy ascii_lower (client_lock db_count_broken 100) "t"
               <> OperationNoData) by (vm_compute; discriminate).
  split; [exact Hi | split; [exact Hn | split; [reflexivity|]]].
  destruct (WriteTable_count_failure ascii_lower (client_lock db_count_broken 100)
              "t" [] ErrScanNull Hi Hn eq_refl) as [E1 E2].
  split; [rewrite E1; reflexivity | rewrite E2; reflexivity].
Defined.

(** The three rows of [t] under [UseTableLock], in batches of two. *)
Lemma WriteTable_with_rows_witness :
  policy ascii_lower (client_lock db_t 2) "t" <> OperationIgnore
  /\ policy ascii_lower (client_lock db_t 2) "t" <> OperationNoData
  /\ Scan_uint64
       (first_row
          (on_query (DB (client_lock db_t 2))
             (issued [] ++ read_locks (client_lock db_t 2) "t"
              ++ ["SHOW CREATE TABLE `" +:+ "t" +:+ "`"])
             (count_query ascii_lower (client_lock db_t 2) "t")))
     = Done 3%N
  /\ (0 < 3)%N
  /\ issued (WriteTable ascii_lower (client_lock db_t 2) "t" []).1
     = ["LOCK TABLES `t` READ"; "FLUSH TABLES `t`"; "SHOW CREATE TABLE `t`";
        "SELECT COUNT(*) FROM `t`"; "SELECT * FROM `t` LIMIT 1";
        "SELECT `id`, `Name` FROM `t`"; "UNLOCK TABLES"].
Proof.
  assert (Hi : policy ascii_lower (client_lock db_t 2) "t" <> OperationIgnore)
    by (vm_compute; discriminate).
  assert (Hn : policy ascii_lower (client_lock db_t 2) "t" <> OperationNoData)
    by (vm_compute; discriminate).
  assert (Hp : (0 < 3)%N) by reflexivity.
  split; [exact Hi | split; [exact Hn | split; [reflexivity | split; [exact Hp|]]]].
  rewrite (WriteTable_with_rows ascii_lower (client_lock db_t 2) "t" [] 3
             Hi Hn eq_refl Hp).
  reflexivity.
Defined.

(** The fourth row of [t] cannot be read, with batches of two: the first two
    rows are written, the third is lost. *)
Lemma WriteTableData_scan_error_witness :
  0 < ExtendedInsertRows (client db_rows_broken 2)
  /\ selectAllDataFor ascii_lower (client db_rows_broken 2) "t" []
     = ([Issued "SELECT * FROM `t` LIMIT 1"; Issued "SELECT `id`, `Name` FROM `t`"],
        Done (rows_t_broken, ["id"; "Name"]))
  /\ cursor rows_t_broken
     = [Done [Some "1"; Some "a"]; Done [Some "2"; Some "b"]; Done [Some "3"; Some "c"]]
       ++ Failed ErrBroken :: [Done [Some "5"; Some "e"]]
  /\ all_scanned 2
       [Done [Some "1"; Some "a"]; Done [Some "2"; Some "b"]; Done [Some "3"; Some "c"]]
       [[Some "1"; Some "a"]; [Some "2"; Some "b"]; [Some "3"; Some "c"]]
  /\ Scan_raw 2 (Failed ErrBroken) = Failed ErrBroken
  /\ (WriteTableData ascii_lower (client db_rows_broken 2) "t" []).2 = Some ErrBroken.
Proof.
  assert (H1 : 0 < ExtendedInsertRows (client db_rows_broken 2)) by (simpl; lia).
  assert (H4 : all_scanned 2
       [Done [Some "1"; Some "a"]; Done [Some "2"; Some "b"]; Done [Some "3"; Some "c"]]
       [[Some "1"; Some "a"]; [Some "2"; Some "b"]; [Some "3"; Some "c"]])
    by (repeat constructor).
  split; [exact H1 | split; [reflexivity | split; [reflexivity | split;
    [exact H4 | split; [reflexivity|]]]]].
  destruct (WriteTableData_scan_error ascii_lower (client db_rows_broken 2) "t" []
              [Issued "SELECT * FROM `t` LIMIT 1"; Issued "SELECT `id`, `Name` FROM `t`"]
              rows_t_broken ["id"; "Name"]
              [Done [Some "1"; Some "a"]; Done [Some "2"; Some "b"];
               Done [Some "3"; Some "c"]]
              (Failed ErrBroken) [Done [Some "5"; Some "e"]]
              [[Some "1"; Some "a"]; [Some "2"; Some "b"]; [Some "3"; Some "c"]]
              ErrBroken H1 eq_refl eq_refl H4 eq_refl)
    as (batches & lost & E & _).
  rewrite E. reflexivity.
Defined.

(** The same cursor without batching: no statement at all. *)
Lemma WriteTableData_scan_error_unbounded_witness :
  ExtendedInsertRows (client db_rows_broken 0) = 0
  /\ selectAllDataFor ascii_lower (client db_rows_broken 0) "t" []
     = ([Issued "SELECT * FROM `t` LIMIT 1"; Issued "SELECT `id`, `Name` FROM `t`"],
        Done (rows_t_broken, ["id"; "Name"]))
  /\ cursor rows_t_broken
     = [Done [Some "1"; Some "a"]; Done [Some "2"; Some "b"]; Done [Some "3"; Some "c"]]
       ++ Failed ErrBroken :: [Done [Some "5"; Some "e"]]
  /\ all_scanned 2
       [Done [Some "1"; Some "a"]; Done [Some "2"; Some "b"]; Done [Some "3"; Some "c"]]
       [[Some "1"; Some "a"]; [Some "2"; Some "b"]; [Some "3"; Some "c"]]
  /\ Scan_raw 2 (Failed ErrBroken) = Failed ErrBroken
  /\ sink (WriteTableData ascii_lower (client db_rows_broken 0) "t" []).1 = [].
Proof.
  assert (H4 : all_scanned 2
       [Done [Some "1"; Some "a"]; Done [Some "2"; Some "b"]; Done [Some "3"; Some "c"]]
       [[Some "1"; Some "a"]; [Some "2"; Some "b"]; [Some "3"; Some "c"]])
    by (repeat constructor).
  split; [reflexivity | split; [reflexivity | split; [reflexivity | split;
    [exact H4 | split; [reflexivity|]]]]].
  rewrite (WriteTableData_scan_error_unbounded ascii_lower (client db_rows_broken 0)
             "t" []
             [Issued "SELECT * FROM `t` LIMIT 1"; Issued "SELECT `id`, `Name` FROM `t`"]
             rows_t_broken ["id"; "Name"]
             [Done [Some "1"; Some "a"]; Done [Some "2"; Some "b"];
              Done [Some "3"; Some "c"]]
             (Failed ErrBroken) [Done [Some "5"; Some "e"]]
             [[Some "1"; Some "a"]; [Some "2"; Some "b"]; [Some "3"; Some "c"]]
             ErrBroken eq_refl eq_refl eq_refl H4 eq_refl).
  reflexivity.
Defined.

(** The three rows of [t] with [ExtendedInsertRows = -1]: three statements. *)
Lemma WriteTableData_row_by_row_witness :
  ExtendedInsertRows (client db_t (-1)) <> 0
  /\ ExtendedInsertRows (client db_t (-1)) <= 1
  /\ selectAllDataFor ascii_lower (client db_t (-1)) "t" []
     = ([Issued "SELECT * FROM `t` LIMIT 1"; Issued "SELECT `id`, `Name` FROM `t`"],
        Done (rows_t, ["id"; "Name"]))
  /\ all_scanned 2 (cursor rows_t)
       [[Some "1"; Some "a'b"]; [Some "2"; None]; [Some "3"; Some "c"]]
  /\ length (sink (WriteTableData ascii_lower (client db_t (-1)) "t" []).1) = 3%nat.
Proof.
  assert (H0 : ExtendedInsertRows (client db_t (-1)) <> 0) by (simpl; lia).
  assert (H1 : ExtendedInsertRows (client db_t (-1)) <= 1) by (simpl; lia).
  assert (H4 : all_scanned 2 (cursor rows_t)
       [[Some "1"; Some "a'b"]; [Some "2"; None]; [Some "3"; Some "c"]])
    by (repeat constructor).
  split; [exact H0 | split; [exact H1 | split; [reflexivity | split; [exact H4|]]]].
  rewrite (WriteTableData_row_by_row ascii_lower (client db_t (-1)) "t" []
             [Issued "SELECT * FROM `t` LIMIT 1"; Issued "SELECT `id`, `Name` FROM `t`"]
             rows_t ["id"; "Name"]
             [[Some "1"; Some "a'b"]; [Some "2"; None]; [Some "3"; Some "c"]]
             H0 H1 eq_refl H4).
  reflexivity.
Defined.

(** The query of the repository's test of [GetSelectQueryForTable]. *)
Lemma GetSelectQueryForTable_text_witness :
  on_query (DB client_maps) (issued []) ("SELECT * FROM `" +:+ "t" +:+ "` LIMIT 1")
  = Done (NewRows ["id"; "Name"] [[Some "1"; Some "a'b"]])
  /\ Columns (NewRows ["id"; "Name"] [[Some "1"; Some "a'b"]]) = Done ["id"; "Name"]
  /\ (GetSelectQueryForTable ascii_lower client_maps "t" []).2
     = ("SELECT `id`, NOW() AS `Name` FROM `t` WHERE id > 0", None).
Proof.
  split; [reflexivity | split; [reflexivity|]].
  rewrite (GetSelectQueryForTable_text ascii_lower client_maps "t" []
             (NewRows ["id"; "Name"] [[Some "1"; Some "a'b"]]) ["id"; "Name"]
             eq_refl eq_refl).
  reflexivity.
Defined.

(** The probe of [t] fails: [WriteTableData] returns its error. *)
Lemma probe_failure_propagates_witness :
  (on_query (DB (client db_select_broken 100)) (issued [])
     ("SELECT * FROM `" +:+ "t" +:+ "` LIMIT 1") = Failed ErrBroken
   \/ (exists rows,
         on_query (DB (client db_select_broken 100)) (issued [])
           ("SELECT * FROM `" +:+ "t" +:+ "` LIMIT 1") = Done rows
         /\ Columns rows = Failed ErrBroken))
  /\ WriteTableData ascii_lower (client db_select_broken 100) "t" []
     = ([Issued "SELECT * FROM `t` LIMIT 1"], Some ErrBroken).
Proof.
  assert (H : on_query (DB (client db_select_broken 100)) (issued [])
     ("SELECT * FROM `" +:+ "t" +:+ "` LIMIT 1") = Failed ErrBroken
   \/ (exists rows,
         on_query (DB (client db_select_broken 100)) (issued [])
           ("SELECT * FROM `" +:+ "t" +:+ "` LIMIT 1") = Done rows
         /\ Columns rows = Failed ErrBroken)) by (left; reflexivity).
  split; [exact H|].
  destruct (probe_failure_propagates ascii_lower (client db_select_broken 100) "t" []
              ErrBroken H) as (_ & _ & E).
  exact E.
Defined.

